(** * AI-Coding-Assistant: the agent orchestrator

    A shallow embedding of [backend/app/orchestrator.py] (class
    [AgentOrchestrator]) and of the agents it drives
    ([backend/app/agents/*.py]), with the properties of backend selection,
    fallback, streaming and the feedback history proved over it.

    Python coroutines are functions in a state-and-exception monad over the
    orchestrator's attributes; async generators additionally carry the
    fragments they yield.  The LLM providers, the prompt templates and the
    clock are the environment: they are parameters of the development. *)

From Stdlib Require Import String List Bool Arith Lia ZArith.
From Equations Require Import Equations.
Import ListNotations.
Local Open Scope string_scope.
Local Open Scope list_scope.

Set Implicit Arguments.
Set Warnings "-register-all".

(** ** Python values *)

Inductive PyVal : Type :=
| PNone
| PBool (b : bool)
| PInt (z : Z)
| PFloat (literal : string)
| PStr (s : string)
| PList (items : list PyVal)
| PDict (items : list (string * PyVal)).

(** A [Dict[str, Any]]: keys in insertion order, each key once. *)
Definition dict := list (string * PyVal).

(** Keyword arguments ([**kwargs]). *)
Definition kwargs := list (string * PyVal).

Module Dict.

Fixpoint get {V : Type} (d : list (string * V)) (k : string) : option V :=
  match d with
  | [] => None
  | (k', v) :: d' => if String.eqb k' k then Some v else get d' k
  end.

Definition mem {V : Type} (k : string) (d : list (string * V)) : bool :=
  match get d k with Some _ => true | None => false end.

(** [d[k] = v]: an existing key keeps its position, a new one goes last. *)
Fixpoint set {V : Type} (d : list (string * V)) (k : string) (v : V)
  : list (string * V) :=
  match d with
  | [] => [(k, v)]
  | (k', v') :: d' =>
      if String.eqb k' k then (k', v) :: d' else (k', v') :: set d' k v
  end.

Definition keys {V : Type} (d : list (string * V)) : list string :=
  map fst d.

Definition values {V : Type} (d : list (string * V)) : list V :=
  map snd d.

End Dict.

(** Truth value of an [Optional[str]]: [None] and [""] are false. *)
Definition truthy (s : option string) : bool :=
  match s with
  | Some s => negb (String.eqb s "")
  | None => false
  end.

(** [s != lit] for an [Optional[str]] against a string literal. *)
Definition str_ne (s : option string) (lit : string) : bool :=
  match s with
  | Some s => negb (String.eqb s lit)
  | None => true
  end.

(** ** Exceptions (all of them subclasses of [Exception]) *)

Inductive Exn : Type :=
| ValueError (msg : string)
| RuntimeError (msg : string)
| TypeError (msg : string)
| AttributeError (msg : string)
| KeyError (key : string)
| ProviderError (msg : string).

(** [str(e)] *)
Definition exn_str (e : Exn) : string :=
  match e with
  | ValueError m | RuntimeError m | TypeError m
  | AttributeError m | ProviderError m => m
  | KeyError k => ("'" ++ k ++ "'")%string
  end.

(** ** LLM clients ([app/models]) *)

Inductive Provider : Type := ClaudeSonnetClient | OpenAIClient | GeminiClient.

(** An [LLMInterface] object: [__init__] stores the key and the model. *)
Record LLM : Type := mkLLM {
  provider : Provider;
  api_key : string;
  model : string
}.

(** Arguments of [generate] / [stream_generate]. *)
Record GenArgs : Type := mkGenArgs {
  system : string;
  user : string;
  temperature : PyVal;
  max_tokens : PyVal
}.

(** The dict every client's [generate] returns. *)
Record Response : Type := mkResponse {
  content : string;
  resp_model : string;
  tokens_used : Z;
  input_tokens : Z;
  output_tokens : Z;
  stop_reason : string
}.

(** ** Settings ([app/config.py], the fields the orchestrator reads) *)

Record Settings : Type := mkSettings {
  anthropic_api_key : option string;
  openai_api_key : option string;
  gemini_api_key : option string;
  github_token : option string;
  default_model : string;
  claude_model : string;
  openai_model : string;
  gemini_model : string;
  enable_fallback : bool
}.

(** ** Agents and their operations *)

Inductive Agent : Type :=
| code_generator | code_reviewer | system_architect | github_mcp | self_evolving.

Inductive AgentOp : Type :=
| generate_code_op | stream_generate_code_op
| review_code_op | quick_check_op
| design_architecture_op | suggest_patterns_op | optimize_architecture_op
| analyze_repository_op | suggest_pr_description_op | code_search_assistant_op.

(** The class an operation belongs to. *)
Definition owner (op : AgentOp) : Agent :=
  match op with
  | generate_code_op | stream_generate_code_op => code_generator
  | review_code_op | quick_check_op => code_reviewer
  | design_architecture_op | suggest_patterns_op
  | optimize_architecture_op => system_architect
  | analyze_repository_op | suggest_pr_description_op
  | code_search_assistant_op => github_mcp
  end.

(** The templates of [app/utils/prompt_templates.py] that the agents format. *)
Inductive Template : Type :=
| CODE_GENERATION_TEMPLATE
| CODE_REVIEW_TEMPLATE
| SYSTEM_ARCHITECT_TEMPLATE
| GITHUB_MCP_TEMPLATE
| SELF_EVOLVING_TEMPLATE.

(** The replacement fields of each template as the file has them, in order of
    first appearance. *)
Definition shipped_fields (t : Template) : list string :=
  match t with
  | CODE_GENERATION_TEMPLATE => ["language"; "context"]
  | CODE_REVIEW_TEMPLATE => ["language"; "file_path"]
  | SYSTEM_ARCHITECT_TEMPLATE => ["code"; "goals"; "language"]
  | GITHUB_MCP_TEMPLATE => ["repo_url"; "analysis_type"]
  | SELF_EVOLVING_TEMPLATE => ["feedback"; "context"]
  end.

(** The [TEMPLATE.format(name=..., ...)] call an operation makes, if it makes
    one: the template and the keyword names it passes. *)
Definition format_call (op : AgentOp) : option (Template * list string) :=
  match op with
  | generate_code_op | stream_generate_code_op =>
      Some (CODE_GENERATION_TEMPLATE, ["language"; "context"])
  | review_code_op => Some (CODE_REVIEW_TEMPLATE, ["language"; "file_path"])
  | design_architecture_op =>
      Some (SYSTEM_ARCHITECT_TEMPLATE, ["requirements"; "current_architecture"])
  | analyze_repository_op =>
      Some (GITHUB_MCP_TEMPLATE, ["repo_context"; "operation"])
  | _ => None
  end.

Definition learn_format_names : list string :=
  ["previous_interaction"; "feedback"; "outcome"].

(** An entry of [SelfEvolvingAgent.interaction_history]. *)
Record Learning : Type := mkLearning {
  timestamp : string;
  analysis : string;
  previous_interaction : dict;
  feedback : string;
  outcome : string;
  model_used : string
}.

(** ** The orchestrator's state

    The attributes of the [AgentOrchestrator] instance and of its five
    agents.  A client object is identified with its value: [__init__]
    creates at most one client per provider.  An agent's [llm] attribute can
    hold [None] ([stream_generate] stores [self.llms.get(model)] in it).
    [llm_calls] is a ghost log of the calls made on clients. *)

Inductive CallKind : Type := Generate | Stream.

Record World : Type := mkWorld {
  llms : list (string * LLM);
  primary_llm : LLM;
  code_generator_llm : option LLM;
  code_reviewer_llm : option LLM;
  system_architect_llm : option LLM;
  github_mcp_llm : option LLM;
  self_evolving_llm : option LLM;
  interaction_history : list Learning;
  llm_calls : list (CallKind * LLM * GenArgs)
}.

Definition agent_llm (a : Agent) (w : World) : option LLM :=
  match a with
  | code_generator => code_generator_llm w
  | code_reviewer => code_reviewer_llm w
  | system_architect => system_architect_llm w
  | github_mcp => github_mcp_llm w
  | self_evolving => self_evolving_llm w
  end.

Definition with_agent_llm (a : Agent) (l : option LLM) (w : World) : World :=
  match a with
  | code_generator =>
      mkWorld (llms w) (primary_llm w) l (code_reviewer_llm w)
        (system_architect_llm w) (github_mcp_llm w) (self_evolving_llm w)
        (interaction_history w) (llm_calls w)
  | code_reviewer =>
      mkWorld (llms w) (primary_llm w) (code_generator_llm w) l
        (system_architect_llm w) (github_mcp_llm w) (self_evolving_llm w)
        (interaction_history w) (llm_calls w)
  | system_architect =>
      mkWorld (llms w) (primary_llm w) (code_generator_llm w)
        (code_reviewer_llm w) l (github_mcp_llm w) (self_evolving_llm w)
        (interaction_history w) (llm_calls w)
  | github_mcp =>
      mkWorld (llms w) (primary_llm w) (code_generator_llm w)
        (code_reviewer_llm w) (system_architect_llm w) l (self_evolving_llm w)
        (interaction_history w) (llm_calls w)
  | self_evolving =>
      mkWorld (llms w) (primary_llm w) (code_generator_llm w)
        (code_reviewer_llm w) (system_architect_llm w) (github_mcp_llm w) l
        (interaction_history w) (llm_calls w)
  end.

Definition with_history (h : list Learning) (w : World) : World :=
  mkWorld (llms w) (primary_llm w) (code_generator_llm w)
    (code_reviewer_llm w) (system_architect_llm w) (github_mcp_llm w)
    (self_evolving_llm w) h (llm_calls w).

Definition with_call (c : CallKind * LLM * GenArgs) (w : World) : World :=
  mkWorld (llms w) (primary_llm w) (code_generator_llm w)
    (code_reviewer_llm w) (system_architect_llm w) (github_mcp_llm w)
    (self_evolving_llm w) (interaction_history w) (llm_calls w ++ [c]).

(** ** Coroutines and async generators *)

(** A coroutine run to completion: it returns or raises, and leaves a state
    either way. *)
Definition Py (A : Type) : Type := World -> (Exn + A) * World.

(** An async generator consumed to its end: the fragments it yielded, then
    how it stopped. *)
Definition Gen : Type := World -> list string * option Exn * World.

Module PyM.

Definition ret {A} (a : A) : Py A := fun w => (inr a, w).

Definition raise {A} (e : Exn) : Py A := fun w => (inl e, w).

Definition bind {A B} (c : Py A) (k : A -> Py B) : Py B :=
  fun w =>
    match c w with
    | (inr a, w') => k a w'
    | (inl e, w') => (inl e, w')
    end.

(** [try: c  except Exception as e: h e] *)
Definition try_except {A} (c : Py A) (h : Exn -> Py A) : Py A :=
  fun w =>
    match c w with
    | (inr a, w') => (inr a, w')
    | (inl e, w') => h e w'
    end.

(** [a.llm] *)
Definition read_llm (a : Agent) : Py (option LLM) :=
  fun w => (inr (agent_llm a w), w).

(** [a.llm = l] *)
Definition write_llm (a : Agent) (l : option LLM) : Py unit :=
  fun w => (inr tt, with_agent_llm a l w).

End PyM.

Declare Scope py_scope.
Delimit Scope py_scope with py.
Notation "x <- c ;; k" := (PyM.bind c (fun x => k))
  (at level 61, c at next level, right associativity) : py_scope.
Notation "c ;;; k" := (PyM.bind c (fun _ => k))
  (at level 61, right associativity) : py_scope.

Module GenM.

Definition done : Gen := fun w => ([], None, w).

(** [yield s] *)
Definition yield (s : string) : Gen := fun w => ([s], None, w).

Definition raise (e : Exn) : Gen := fun w => ([], Some e, w).

(** Run a statement that yields nothing. *)
Definition exec (c : Py unit) : Gen :=
  fun w =>
    match c w with
    | (inr _, w') => ([], None, w')
    | (inl e, w') => ([], Some e, w')
    end.

Definition seq (g1 g2 : Gen) : Gen :=
  fun w =>
    match g1 w with
    | (out1, None, w1) =>
        match g2 w1 with
        | (out2, stop, w2) => (out1 ++ out2, stop, w2)
        end
    | (out1, Some e, w1) => (out1, Some e, w1)
    end.

(** [try: g  except Exception as e: h e]; what [g] yielded before it raised
    has already reached the consumer. *)
Definition try_except (g : Gen) (h : Exn -> Gen) : Gen :=
  fun w =>
    match g w with
    | (out1, None, w1) => (out1, None, w1)
    | (out1, Some e, w1) =>
        match h e w1 with
        | (out2, stop, w2) => (out1 ++ out2, stop, w2)
        end
    end.

(** [try: g  finally: f] with an [f] that neither yields nor raises. *)
Definition try_finally (g : Gen) (f : World -> World) : Gen :=
  fun w =>
    match g w with
    | (out, stop, w1) => (out, stop, f w1)
    end.

End GenM.

(** ** The environment

    Everything outside the orchestrator and the agents: the configuration,
    the provider SDKs (whether a client can be constructed, what a call on a
    client returns or raises, what a stream delivers before it ends or
    breaks), the GitHub API, the prompt templates (their replacement fields
    and the text they render to), the shape of each operation's result dict,
    and the clock.  Calls are indexed by the number of client calls made so
    far, so a provider may answer the same request differently over time. *)

Record Env : Type := mkEnv {
  settings : Settings;
  construct_raises : Provider -> option Exn;
  template_fields : Template -> list string;
  github_fetch : kwargs -> nat -> option Exn;
  prompt_of : AgentOp -> kwargs -> nat -> GenArgs;
  result_of : AgentOp -> kwargs -> Response -> dict;
  client_generate : LLM -> GenArgs -> nat -> Exn + Response;
  client_stream_generate : LLM -> GenArgs -> nat -> list string * option Exn;
  self_evolving_template : dict -> string -> string -> string;
  json_dumps : list Learning -> string;
  now_isoformat : nat -> string
}.

(** ** Binding [**kwargs] to a signature *)

(** Required and defaulted parameters of each agent method. *)
Definition signature (op : AgentOp) : list string * list string :=
  match op with
  | generate_code_op | stream_generate_code_op =>
      (["prompt"], ["language"; "context"; "temperature"; "max_tokens"])
  | review_code_op =>
      (["code"], ["language"; "file_path"; "temperature"; "max_tokens"])
  | quick_check_op => (["code"], ["language"; "check_type"])
  | design_architecture_op =>
      (["requirements"],
       ["current_architecture"; "constraints"; "temperature"; "max_tokens"])
  | suggest_patterns_op =>
      (["problem_description"], ["language"; "temperature"])
  | optimize_architecture_op =>
      (["current_design"], ["bottlenecks"; "temperature"])
  | analyze_repository_op => (["repo_url"], ["analysis_type"; "temperature"])
  | suggest_pr_description_op => (["changes"], ["context"; "temperature"])
  | code_search_assistant_op => (["search_query"], ["repo_url"; "temperature"])
  end.

Definition learn_from_feedback_signature : list string * list string :=
  (["previous_interaction"; "feedback"; "outcome"], ["temperature"]).

Definition adapt_strategy_signature : list string * list string :=
  (["task_type"], ["context"; "temperature"]).

Definition str_in (k : string) (l : list string) : bool :=
  existsb (String.eqb k) l.

(** The [TypeError] of a call with keyword arguments [kw], if any: a keyword
    the function does not have, or a required parameter left without a
    value. *)
Definition bind_error (sig : list string * list string) (kw : kwargs)
  : option Exn :=
  let (required, defaulted) := sig in
  let unexpected k := negb (str_in k (required ++ defaulted)) in
  let missing k := negb (Dict.mem k kw) in
  match find unexpected (Dict.keys kw) with
  | Some k =>
      Some (TypeError ("got an unexpected keyword argument " ++ k)%string)
  | None =>
      match find missing required with
      | Some k =>
          Some (TypeError ("missing required positional argument " ++ k)%string)
      | None => None
      end
  end.

(** [str.format] with keyword arguments raises [KeyError] on the first
    replacement field it has no argument for. *)
Definition format_error (fields names : list string) : option Exn :=
  match find (fun f => negb (str_in f names)) fields with
  | Some f => Some (KeyError f)
  | None => None
  end.

Definition nl : string := String (Ascii.ascii_of_nat 10) EmptyString.

(** [lines] joined with a newline after each one. *)
Definition unlines (lines : list string) : string :=
  fold_right (fun l acc => (l ++ nl ++ acc)%string) "" lines.

(** [l[-n:]] for a positive [n]: the last [n] items, all of them when there are
    fewer. *)
Definition last_n {A : Type} (n : nat) (l : list A) : list A :=
  skipn (length l - n) l.

(** ** The agents ([app/agents]) *)

Module Agents.
Section WithEnv.

Variable env : Env.

Import PyM.
Local Open Scope py_scope.

(** Index of the next client call. *)
Definition tick (w : World) : nat := length (llm_calls w).

(** Python's check of the keywords when a method is entered. *)
Definition bind_kwargs (sig : list string * list string) (kw : kwargs)
  : Py unit :=
  match bind_error sig kw with
  | Some e => raise e
  | None => ret tt
  end.

(** [self.github_client.authenticated]: the client was built with a token
    that is not [None]. *)
Definition authenticated : bool :=
  match github_token (settings env) with
  | Some _ => true
  | None => false
  end.

(** The calls a method makes on the GitHub client: they return or one of them
    raises. *)
Definition github_call (kw : kwargs) : Py unit :=
  fun w =>
    match github_fetch env kw (tick w) with
    | Some e => (inl e, w)
    | None => (inr tt, w)
    end.

(** What a method asks of GitHub before it builds its prompts.
    [analyze_repository] reads the repository and its languages, and a failure
    is the method's failure.  [code_search_assistant] searches when the client
    is authenticated, inside a [try] of its own: a failure of the search is
    logged and swallowed, and the method goes on with no search results. *)
Definition fetch (op : AgentOp) (kw : kwargs) : Py unit :=
  match op with
  | analyze_repository_op => github_call kw
  | code_search_assistant_op =>
      if authenticated
      then try_except (github_call kw) (fun _ => ret tt)
      else ret tt
  | _ => ret tt
  end.

(** The operation's [TEMPLATE.format(...)] call. *)
Definition format_template (t : Template) (names : list string) : Py unit :=
  match format_error (template_fields env t) names with
  | Some e => raise e
  | None => ret tt
  end.

Definition format_for (op : AgentOp) : Py unit :=
  match format_call op with
  | Some (t, names) => format_template t names
  | None => ret tt
  end.

(** The prompts of an operation, once its template is filled. *)
Definition build_prompt (op : AgentOp) (kw : kwargs) : Py GenArgs :=
  fun w => (inr (prompt_of env op kw (tick w)), w).

(** [await self.llm.generate(...)] in agent [self]. *)
Definition llm_generate (self : Agent) (args : GenArgs) : Py Response :=
  fun w =>
    match agent_llm self w with
    | Some llm =>
        (client_generate env llm args (tick w),
         with_call (Generate, llm, args) w)
    | None =>
        (inl (AttributeError "'NoneType' object has no attribute 'generate'"),
         w)
    end.

(** [self.llm.stream_generate(...)] in agent [self], iterated to its end. *)
Definition llm_stream_generate (self : Agent) (args : GenArgs) : Gen :=
  fun w =>
    match agent_llm self w with
    | Some llm =>
        let (chunks, stop) := client_stream_generate env llm args (tick w) in
        (chunks, stop, with_call (Stream, llm, args) w)
    | None =>
        ([],
         Some (AttributeError
                 "'NoneType' object has no attribute 'stream_generate'"),
         w)
    end.

(** The nine one-shot methods have one shape: build the prompts, await
    [self.llm.generate], wrap the response in a dict; an exception is logged
    and raised again. *)
Definition agent_method (op : AgentOp) (kw : kwargs) : Py dict :=
  bind_kwargs (signature op) kw ;;;
  try_except
    (fetch op kw ;;;
     format_for op ;;;
     args <- build_prompt op kw ;;
     response <- llm_generate (owner op) args ;;
     ret (result_of env op kw response))
    (fun e => raise e).

Definition generate_code := agent_method generate_code_op.
Definition review_code := agent_method review_code_op.
Definition quick_check := agent_method quick_check_op.
Definition design_architecture := agent_method design_architecture_op.
Definition suggest_patterns := agent_method suggest_patterns_op.
Definition optimize_architecture := agent_method optimize_architecture_op.
Definition analyze_repository := agent_method analyze_repository_op.
Definition suggest_pr_description := agent_method suggest_pr_description_op.
Definition code_search_assistant := agent_method code_search_assistant_op.

(** [CodeGeneratorAgent.stream_generate_code]: every chunk of the client's
    stream is yielded as it comes. *)
Definition stream_generate_code (kw : kwargs) : Gen :=
  fun w =>
    match bind_error (signature stream_generate_code_op) kw with
    | Some e => ([], Some e, w)
    | None =>
        GenM.seq (GenM.exec (format_for stream_generate_code_op))
          (GenM.try_except
             (llm_stream_generate code_generator
                (prompt_of env stream_generate_code_op kw (tick w)))
             GenM.raise)
          w
    end.

(** *** SelfEvolvingAgent *)

Definition learn_user_prompt : string :=
  unlines
    ["Analyze this interaction and provide:";
     "1. What worked well";
     "2. What could be improved";
     "3. Specific lessons learned";
     "4. Improved prompt/strategy for similar future tasks";
     "5. Patterns to remember for future interactions"].

(** [self.interaction_history.append(learning)] *)
Definition history_append (learning : Learning) : Py unit :=
  fun w => (inr tt, with_history (interaction_history w ++ [learning]) w).

Definition learn_from_feedback (previous_interaction : dict)
    (feedback outcome : string) (temperature : PyVal) : Py Learning :=
  let system_prompt :=
    self_evolving_template env previous_interaction feedback outcome in
  format_template SELF_EVOLVING_TEMPLATE learn_format_names ;;;
  try_except
    (response <- llm_generate self_evolving
                   (mkGenArgs system_prompt learn_user_prompt temperature
                      (PInt 2048)) ;;
     learning <- (fun w =>
                    (inr (mkLearning (now_isoformat env (tick w))
                            (content response) previous_interaction
                            feedback outcome (resp_model response)), w)) ;;
     history_append learning ;;;
     ret learning)
    (fun e => raise e).

(** [h.get("previous_interaction", {}).get("task_type") == task_type] *)
Definition task_type_matches (task_type : string) (h : Learning) : bool :=
  match Dict.get (previous_interaction h) "task_type" with
  | Some (PStr s) => String.eqb s task_type
  | _ => false
  end.

(** The comprehension over [self.interaction_history], sliced with [-5:]. *)
Definition relevant_history (task_type : string) (history : list Learning)
  : list Learning :=
  last_n 5 (filter (task_type_matches task_type) history).

(** The two prompts of [adapt_strategy], as its f-strings build them from
    the selected history. *)
Definition adapt_system_prompt (task_type : string)
    (relevant : list Learning) : string :=
  unlines
    ["You are a self-improving AI agent.";
     "Analyze past performance and adapt strategy for better outcomes.";
     "";
     ("Task Type: " ++ task_type)%string;
     ("Recent History: " ++
        match relevant with
        | [] => "No history yet"
        | _ :: _ => json_dumps env relevant
        end)%string].

Definition adapt_user_prompt (task_type : string) (context : option string)
  : string :=
  unlines
    [("Based on past interactions, provide an adapted strategy for "
        ++ task_type ++ " tasks.")%string;
     "";
     (if truthy context
      then ("Additional Context: " ++
              match context with Some c => c | None => "" end)%string
      else "");
     "";
     "Include:";
     "1. Key insights from past performance";
     "2. Adapted approach";
     "3. Specific improvements to implement";
     "4. Success metrics"].

Definition adapt_strategy (task_type : string) (context : option string)
    (temperature : PyVal) : Py dict :=
  fun w =>
    let relevant_history := relevant_history task_type (interaction_history w) in
    let system_prompt := adapt_system_prompt task_type relevant_history in
    let user_prompt := adapt_user_prompt task_type context in
    try_except
      (response <- llm_generate self_evolving
                     (mkGenArgs system_prompt user_prompt temperature
                        (PInt 2048)) ;;
       ret [("adapted_strategy", PStr (content response));
            ("task_type", PStr task_type);
            ("based_on_interactions",
             PInt (Z.of_nat (length relevant_history)));
            ("model_used", PStr (resp_model response))])
      (fun e => raise e) w.

(** The dict [learn_from_feedback] returns (the stored object itself). *)
Definition learning_dict (l : Learning) : dict :=
  [("timestamp", PStr (timestamp l));
   ("analysis", PStr (analysis l));
   ("previous_interaction", PDict (previous_interaction l));
   ("feedback", PStr (feedback l));
   ("outcome", PStr (outcome l));
   ("model_used", PStr (model_used l))].

Definition or_default (v : option PyVal) (d : PyVal) : PyVal :=
  match v with Some v => v | None => d end.

(** [self.self_evolving.learn_from_feedback] called with [**kwargs]; the
    values are taken at the annotated types, anything else is rejected. *)
Definition learn_from_feedback_kw (kw : kwargs) : Py dict :=
  bind_kwargs learn_from_feedback_signature kw ;;;
  match Dict.get kw "previous_interaction",
        Dict.get kw "feedback", Dict.get kw "outcome" with
  | Some (PDict previous_interaction), Some (PStr feedback),
    Some (PStr outcome) =>
      learning <- learn_from_feedback previous_interaction feedback outcome
                    (or_default (Dict.get kw "temperature") (PFloat "0.4")) ;;
      ret (learning_dict learning)
  | _, _, _ => raise (TypeError "learn_from_feedback: argument type")
  end.

(** [self.self_evolving.adapt_strategy] called with [**kwargs], likewise. *)
Definition adapt_strategy_kw (kw : kwargs) : Py dict :=
  bind_kwargs adapt_strategy_signature kw ;;;
  match Dict.get kw "task_type", Dict.get kw "context" with
  | Some (PStr task_type), None
  | Some (PStr task_type), Some PNone =>
      adapt_strategy task_type None
        (or_default (Dict.get kw "temperature") (PFloat "0.3"))
  | Some (PStr task_type), Some (PStr context) =>
      adapt_strategy task_type (Some context)
        (or_default (Dict.get kw "temperature") (PFloat "0.3"))
  | _, _ => raise (TypeError "adapt_strategy: argument type")
  end.

(** [SelfEvolvingAgent.get_interaction_history] *)
Definition get_interaction_history (w : World) : list Learning :=
  interaction_history w.

(** [SelfEvolvingAgent.clear_history]: [self.interaction_history = []] *)
Definition clear_history : Py unit :=
  fun w => (inr tt, with_history [] w).

End WithEnv.
End Agents.

(** ** The orchestrator ([app/orchestrator.py]) *)

Definition inspect {A : Type} (a : A) : {b : A | a = b} := exist _ a eq_refl.

Module Orchestrator.
Section WithEnv.

Variable env : Env.

Import PyM.
Local Open Scope py_scope.

(** *** [__init__] *)

(** One [if settings.<key>: try: self.llms[name] = Client(...) except: ...]
    block: without a key nothing is attempted, and a constructor that raises
    is logged and leaves the registry as it was. *)
Definition register (key : option string) (name : string) (p : Provider)
    (model : string) (llms : list (string * LLM)) : list (string * LLM) :=
  match key with
  | Some k =>
      if truthy key then
        match construct_raises env p with
        | None => Dict.set llms name (mkLLM p k model)
        | Some _ => llms
        end
      else llms
  | None => llms
  end.

Definition configured_llms : list (string * LLM) :=
  let s := settings env in
  let llms := [] in
  let llms :=
    register (anthropic_api_key s) "claude" ClaudeSonnetClient
      (claude_model s) llms in
  let llms :=
    register (openai_api_key s) "openai" OpenAIClient (openai_model s) llms in
  let llms :=
    register (gemini_api_key s) "gemini" GeminiClient (gemini_model s) llms in
  llms.

Definition no_llm_message : string :=
  "No LLM clients initialized! Please provide at least one API key.".

(** The constructor: the registry, the primary client
    ([self.llms.get(default) or list(self.llms.values())[0]]), and the five
    agents bound to the primary, with an empty feedback history. *)
Definition init : Exn + World :=
  let llms := configured_llms in
  match Dict.values llms with
  | [] => inl (RuntimeError no_llm_message)
  | first :: _ =>
      let primary_llm :=
        match Dict.get llms (default_model (settings env)) with
        | Some llm => llm
        | None => first
        end in
      inr (mkWorld llms primary_llm (Some primary_llm) (Some primary_llm)
             (Some primary_llm) (Some primary_llm) (Some primary_llm) [] [])
  end.

Definition get_available_models (w : World) : list string :=
  Dict.keys (llms w).

(** [self.llms[model]] when [model and model in self.llms], else the primary. *)
Definition get_llm (model : option string) (w : World) : LLM :=
  match model with
  | Some m =>
      if truthy model && Dict.mem m (llms w) then
        match Dict.get (llms w) m with
        | Some llm => llm
        | None => primary_llm w
        end
      else primary_llm w
  | None => primary_llm w
  end.

(** *** [route_request] *)

(** [if model: original_llm = agent.llm; agent.llm = target_llm] *)
Definition swap_llm (a : Agent) (model : option string) (target_llm : LLM)
  : Py (option LLM) :=
  if truthy model then
    original_llm <- read_llm a ;;
    write_llm a (Some target_llm) ;;;
    ret original_llm
  else ret None.

(** [if original_llm: agent.llm = original_llm] *)
Definition restore_llm (a : Agent) (original_llm : option LLM) : Py unit :=
  match original_llm with
  | Some llm => write_llm a (Some llm)
  | None => ret tt
  end.

(** The [try] block: the chain of comparisons on [task_type]. *)
Definition route_dispatch (task_type : string) (model : option string)
    (kw : kwargs) : Py dict :=
  fun w =>
    let target_llm := get_llm model w in
    (if String.eqb task_type "generate" then
       original_llm <- swap_llm code_generator model target_llm ;;
       result <- Agents.generate_code env kw ;;
       restore_llm code_generator original_llm ;;;
       ret result
     else if String.eqb task_type "review" then
       original_llm <- swap_llm code_reviewer model target_llm ;;
       result <- Agents.review_code env kw ;;
       restore_llm code_reviewer original_llm ;;;
       ret result
     else if String.eqb task_type "quick-check" then
       Agents.quick_check env kw
     else if String.eqb task_type "architecture" then
       original_llm <- swap_llm system_architect model target_llm ;;
       result <- Agents.design_architecture env kw ;;
       restore_llm system_architect original_llm ;;;
       ret result
     else if String.eqb task_type "suggest-patterns" then
       Agents.suggest_patterns env kw
     else if String.eqb task_type "optimize-architecture" then
       Agents.optimize_architecture env kw
     else if String.eqb task_type "analyze-repo" then
       Agents.analyze_repository env kw
     else if String.eqb task_type "pr-description" then
       Agents.suggest_pr_description env kw
     else if String.eqb task_type "code-search" then
       Agents.code_search_assistant env kw
     else if String.eqb task_type "learn" then
       Agents.learn_from_feedback_kw env kw
     else if String.eqb task_type "adapt" then
       Agents.adapt_strategy_kw env kw
     else
       raise (ValueError ("Unknown task type: " ++ task_type)%string)) w.

(** The test of the [except] block:
    [settings.enable_fallback and model != 'openai' and 'openai' in self.llms] *)
Definition fallback_eligible (model : option string) (w : World) : bool :=
  enable_fallback (settings env) && str_ne model "openai"
  && Dict.mem "openai" (llms w).

(** The recursion of [route_request] ends: the call in the handler asks for
    ["openai"], and a call that asks for ["openai"] makes none. *)
Definition retries_left (model : option string) : nat :=
  if str_ne model "openai" then 1 else 0.

Equations? route_request (task_type : string) (model : option string)
    (kw : kwargs) (w : World) : (Exn + dict) * World
    by wf (retries_left model) lt :=
  route_request task_type model kw w
    with route_dispatch task_type model kw w := {
    | (inr result, w') => (inr result, w');
    | (inl e, w') with inspect (fallback_eligible model w') := {
        | exist _ true Hretry =>
            route_request task_type (Some "openai") kw w';
        | exist _ false _ => (inl e, w') } }.
Proof.
  unfold fallback_eligible in Hretry. unfold retries_left.
  destruct (str_ne _ "openai"); [simpl; lia|].
  rewrite andb_false_r in Hretry. discriminate.
Qed.

(** *** [stream_generate] *)

Definition error_fragment (e : Exn) : string :=
  (nl ++ nl ++ "Error: " ++ exn_str e)%string.

(** [self.llms.get(model)] *)
Definition llms_get (model : option string) (w : World) : option LLM :=
  match model with
  | Some m => Dict.get (llms w) m
  | None => None
  end.

Definition stream_generate (model : option string) (kw : kwargs) : Gen :=
  fun w =>
    let target_llm :=
      if truthy model then llms_get model w else Some (primary_llm w) in
    let original_llm := code_generator_llm w in
    GenM.seq
      (GenM.exec (write_llm code_generator target_llm))
      (GenM.try_finally
         (GenM.try_except
            (Agents.stream_generate_code env kw)
            (fun e w' =>
               if fallback_eligible model w' then
                 GenM.try_except
                   (GenM.seq
                      (GenM.exec
                         (write_llm code_generator
                            (Dict.get (llms w') "openai")))
                      (Agents.stream_generate_code env kw))
                   (fun fallback_error =>
                      GenM.yield (error_fragment fallback_error))
                   w'
               else GenM.yield (error_fragment e) w'))
         (with_agent_llm code_generator original_llm))
      w.

End WithEnv.
End Orchestrator.

(** ** The route handlers ([app/api/routes.py])

    The handlers that go straight to [orchestrator.route_request]: they pass
    the fields of the validated request as keyword arguments, never a
    [model], wrap the result in a [GenericResponse], and turn any exception
    into an [HTTPException]. *)

Module Routes.

Record HTTPException : Type := mkHTTPException {
  status_code : nat;
  detail : string
}.

Record GenericResponse : Type := mkGenericResponse {
  success : bool;
  data : dict;
  message : option string;
  response_model_used : option string
}.

(** The request schemas of [app/api/schemas.py]; a float field holds its
    literal. *)
Record RepoAnalysisRequest : Type := mkRepoAnalysisRequest {
  ra_repo_url : string;
  ra_analysis_type : string;
  ra_temperature : string
}.

Record CodeSearchRequest : Type := mkCodeSearchRequest {
  cs_search_query : string;
  cs_repo_context : option string;
  cs_temperature : string
}.

Record FeedbackRequest : Type := mkFeedbackRequest {
  fb_previous_interaction : dict;
  fb_feedback : string;
  fb_outcome : string;
  fb_temperature : string
}.

Record AdaptStrategyRequest : Type := mkAdaptStrategyRequest {
  as_task_type : string;
  as_context : option string;
  as_temperature : string
}.

(** An [Optional[str]] field as a keyword value. *)
Definition optional (s : option string) : PyVal :=
  match s with
  | Some s => PStr s
  | None => PNone
  end.

(** [needle in s] for strings. *)
Definition str_contains (needle s : string) : bool :=
  match String.index 0 needle s with
  | Some _ => true
  | None => false
  end.

Definition Handler : Type := World -> (HTTPException + GenericResponse) * World.

Section WithEnv.

Variable env : Env.

(** [return GenericResponse(success=True, data=result, message=...)], and
    [except Exception as e: raise HTTPException(status_code=500,
    detail=str(e))]. *)
Definition respond (msg : string) (run : (Exn + dict) * World)
  : (HTTPException + GenericResponse) * World :=
  match run with
  | (inr result, w') =>
      (inr (mkGenericResponse true result (Some msg) None), w')
  | (inl e, w') => (inl (mkHTTPException 500 (exn_str e)), w')
  end.

(** [/github/analyze]: the URL is checked first, and the [HTTPException] of
    the check is raised as it is. *)
Definition analyze_repository (request : RepoAnalysisRequest) : Handler :=
  fun w =>
    if String.eqb (ra_repo_url request) ""
       || negb (str_contains "github.com" (ra_repo_url request))
    then (inl (mkHTTPException 400 "Invalid GitHub repository URL"), w)
    else
      respond "Repository analysis completed"
        (Orchestrator.route_request env "analyze-repo" None
           [("repo_url", PStr (ra_repo_url request));
            ("analysis_type", PStr (ra_analysis_type request));
            ("temperature", PFloat (ra_temperature request))] w).

Definition assist_code_search (request : CodeSearchRequest) : Handler :=
  fun w =>
    respond "Code search guidance provided"
      (Orchestrator.route_request env "code-search" None
         [("search_query", PStr (cs_search_query request));
          ("repo_context", optional (cs_repo_context request));
          ("temperature", PFloat (cs_temperature request))] w).

Definition process_feedback (request : FeedbackRequest) : Handler :=
  fun w =>
    respond "Feedback processed and learned"
      (Orchestrator.route_request env "learn" None
         [("previous_interaction", PDict (fb_previous_interaction request));
          ("feedback", PStr (fb_feedback request));
          ("outcome", PStr (fb_outcome request));
          ("temperature", PFloat (fb_temperature request))] w).

Definition adapt_strategy (request : AdaptStrategyRequest) : Handler :=
  fun w =>
    respond "Strategy adapted"
      (Orchestrator.route_request env "adapt" None
         [("context", optional (as_context request));
          ("temperature", PFloat (as_temperature request))] w).

End WithEnv.

(** [GET /models] *)
Definition get_available_models (w : World) : dict :=
  let models := Orchestrator.get_available_models w in
  [("available_models", PList (map PStr models));
   ("primary_model", PStr (model (primary_llm w)));
   ("count", PInt (Z.of_nat (length models)))].

End Routes.

(** ** Helpers ([app/utils/helpers.py])

    Texts are Rocq strings: sequences of characters with code points below
    256, with [String.length] for [len]. *)

Module Helpers.

(** [text[:n]] for an integer [n]: the first [n] characters, or for a
    negative [n] all but the last [-n]. *)
Definition slice_to (n : Z) (text : string) : string :=
  if (0 <=? n)%Z then substring 0 (Z.to_nat n) text
  else substring 0 (String.length text - Z.to_nat (- n)) text.

Definition truncate_text (text : string) (max_length : Z) : string :=
  if (Z.of_nat (String.length text) <=? max_length)%Z then text
  else (slice_to max_length text ++ "...")%string.

End Helpers.

(** ** Vocabulary of the statements *)

(** The task types [route_request] compares against. *)
Definition task_types : list string :=
  ["generate"; "review"; "quick-check"; "architecture"; "suggest-patterns";
   "optimize-architecture"; "analyze-repo"; "pr-description"; "code-search";
   "learn"; "adapt"].

(** A step that leaves the registry and the primary client alone and makes at
    most [n] client calls. *)
Definition steps (n : nat) (w w' : World) : Prop :=
  llms w' = llms w /\ primary_llm w' = primary_llm w /\
  Agents.tick w <= Agents.tick w' <= Agents.tick w + n.

Definition py_steps {A} (n : nat) (c : Py A) : Prop :=
  forall w, steps n w (snd (c w)).

(** The clients called so far, oldest first. *)
Definition called (w : World) : list LLM :=
  map (fun c => snd (fst c)) (llm_calls w).

(** The order in which [__init__] goes through the providers, and what it
    reads from the settings for each. *)
Definition configuration_order : list Provider :=
  [ClaudeSonnetClient; OpenAIClient; GeminiClient].

Definition provider_name (p : Provider) : string :=
  match p with
  | ClaudeSonnetClient => "claude"
  | OpenAIClient => "openai"
  | GeminiClient => "gemini"
  end.

Definition provider_key (s : Settings) (p : Provider) : option string :=
  match p with
  | ClaudeSonnetClient => anthropic_api_key s
  | OpenAIClient => openai_api_key s
  | GeminiClient => gemini_api_key s
  end.

Definition provider_model (s : Settings) (p : Provider) : string :=
  match p with
  | ClaudeSonnetClient => claude_model s
  | OpenAIClient => openai_model s
  | GeminiClient => gemini_model s
  end.

(** The client of provider [p] is successfully constructed: its key is set and
    its constructor does not raise. *)
Definition constructs (env : Env) (p : Provider) : option LLM :=
  match provider_key (settings env) p, construct_raises env p with
  | Some k, None =>
      if truthy (Some k)
      then Some (mkLLM p k (provider_model (settings env) p))
      else None
  | _, _ => None
  end.

(** The successfully constructed clients under their names, in configuration
    order. *)
Definition constructed (env : Env) : list (string * LLM) :=
  flat_map
    (fun p =>
       match constructs env p with
       | Some llm => [(provider_name p, llm)]
       | None => []
       end)
    configuration_order.

Definition agent_eqb (a b : Agent) : bool :=
  match a, b with
  | code_generator, code_generator
  | code_reviewer, code_reviewer
  | system_architect, system_architect
  | github_mcp, github_mcp
  | self_evolving, self_evolving => true
  | _, _ => false
  end.

(** The agent whose method a task type runs, and the one agent (if any)
    whose [llm] the branch of that task type swaps. *)
Definition task_agent (task_type : string) : option Agent :=
  if String.eqb task_type "generate" then Some code_generator
  else if String.eqb task_type "review" then Some code_reviewer
  else if String.eqb task_type "quick-check" then Some code_reviewer
  else if String.eqb task_type "architecture" then Some system_architect
  else if String.eqb task_type "suggest-patterns" then Some system_architect
  else if String.eqb task_type "optimize-architecture"
  then Some system_architect
  else if String.eqb task_type "analyze-repo" then Some github_mcp
  else if String.eqb task_type "pr-description" then Some github_mcp
  else if String.eqb task_type "code-search" then Some github_mcp
  else if String.eqb task_type "learn" then Some self_evolving
  else if String.eqb task_type "adapt" then Some self_evolving
  else None.

Definition swapping_task_types : list string :=
  ["generate"; "review"; "architecture"].

Definition rebound_agent (task_type : string) : option Agent :=
  if str_in task_type swapping_task_types then task_agent task_type else None.

(** The agent a call of [route_request] swaps: none without a truthy
    [model]. *)
Definition swapped (task_type : string) (model : option string)
  : option Agent :=
  if truthy model then rebound_agent task_type else None.

(** The state in which the agent's method starts. *)
Definition after_swap (env : Env) (task_type : string)
    (model : option string) (w : World) : World :=
  match swapped task_type model with
  | Some a => with_agent_llm a (Some (Orchestrator.get_llm model w)) w
  | None => w
  end.

(** The state a branch ends in, from the state [w_op] its method left: the
    saved client is put back when the method returned and there was one. *)
Definition after_restore (task_type : string) (model : option string)
    (w : World) (outcome : Exn + dict) (w_op : World) : World :=
  match swapped task_type model, outcome with
  | Some a, inr _ =>
      match agent_llm a w with
      | Some original_llm => with_agent_llm a (Some original_llm) w_op
      | None => w_op
      end
  | _, _ => w_op
  end.

(** What an agent's method does to the state it starts in: nothing, or one
    call on the client its agent is bound to, which for a successful
    ["learn"] is followed by the append of the returned record. *)
Definition method_effect (task_type : string) (outcome : Exn + dict)
    (w_mid w_op : World) : Prop :=
  (w_op = w_mid /\ exists e, outcome = inl e) \/
  exists a llm args,
    task_agent task_type = Some a /\ agent_llm a w_mid = Some llm /\
    (w_op = with_call (Generate, llm, args) w_mid \/
     exists learning,
       task_type = "learn" /\
       outcome = inr (Agents.learning_dict learning) /\
       w_op = with_history (interaction_history w_mid ++ [learning])
                (with_call (Generate, llm, args) w_mid)).

(** A step that may rebind the code generator and log at most [n] calls, all
    of them [stream_generate] calls, and changes nothing else. *)
Definition only_streams (n : nat) (w w' : World) : Prop :=
  llms w' = llms w /\ primary_llm w' = primary_llm w /\
  interaction_history w' = interaction_history w /\
  (forall a, a <> code_generator -> agent_llm a w' = agent_llm a w) /\
  exists calls,
    llm_calls w' = llm_calls w ++ calls /\ length calls <= n /\
    Forall (fun c => fst (fst c) = Stream) calls.

(** The target [stream_generate] binds the code generator to. *)
Definition stream_target (model : option string) (w : World) : option LLM :=
  if truthy model then Orchestrator.llms_get model w
  else Some (primary_llm w).

(** A client of the registry. *)
Definition registered (w : World) (llm : LLM) : Prop :=
  In llm (Dict.values (llms w)).

(** The primary and every agent's client are clients of the registry. *)
Definition consistent (w : World) : Prop :=
  registered w (primary_llm w) /\
  forall a, exists llm, agent_llm a w = Some llm /\ registered w llm.

(** ** Concrete deployments, for the examples *)

Module Scenario.

Definition key_of (present : bool) (k : string) : option string :=
  if present then Some k else None.

Definition settings_with (anthropic openai gemini : bool) : Settings :=
  mkSettings
    (key_of anthropic "sk-ant-REDACTED")
    (key_of openai "sk-proj-0123456789abcdefghij")
    (key_of gemini "AIzaSy-0123456789abcdefghij")
    None "claude" "claude-sonnet-4-20250514" "gpt-4-turbo-preview"
    "gemini-2.0-flash-exp" true.

Definition claude : LLM :=
  mkLLM ClaudeSonnetClient "sk-ant-REDACTED"
    "claude-sonnet-4-20250514".
Definition openai : LLM :=
  mkLLM OpenAIClient "sk-proj-0123456789abcdefghij" "gpt-4-turbo-preview".
Definition gemini : LLM :=
  mkLLM GeminiClient "AIzaSy-0123456789abcdefghij" "gemini-2.0-flash-exp".

Definition text_of (kw : kwargs) (k : string) : string :=
  match Dict.get kw k with
  | Some (PStr s) => s
  | _ => ""
  end.

Definition prompts (op : AgentOp) (kw : kwargs) : GenArgs :=
  mkGenArgs "You are an expert software engineer."
    (match op with
     | generate_code_op | stream_generate_code_op => text_of kw "prompt"
     | review_code_op | quick_check_op => text_of kw "code"
     | _ => "request"
     end)
    (Agents.or_default (Dict.get kw "temperature") (PFloat "0.2"))
    (Agents.or_default (Dict.get kw "max_tokens") (PInt 4096)).

Definition unavailable : Exn := ProviderError "503 Service Unavailable".

(** Every constructor succeeds; a provider that is [down] raises on each
    call and breaks each stream after two chunks. *)
Definition env_with (s : Settings) (down : Provider -> bool) : Env :=
  mkEnv s (fun _ => None) shipped_fields (fun _ _ => None)
    (fun op kw _ => prompts op kw)
    (fun _ _ r =>
       [("content", PStr (content r)); ("model_used", PStr (resp_model r))])
    (fun llm _ _ =>
       if down (provider llm) then inl unavailable
       else inr (mkResponse "def add(a, b): return a + b" (model llm)
                   42 30 12 "end_turn"))
    (fun llm _ _ =>
       if down (provider llm) then (["def add("; "a, b"], Some unavailable)
       else (["def add("; "a, b"; "): return a + b"], None))
    (fun _ feedback outcome => (feedback ++ " / " ++ outcome)%string)
    (fun l => "[...]")
    (fun _ => "2025-01-01T00:00:00").

Definition gemini_down (p : Provider) : bool :=
  match p with GeminiClient => true | _ => false end.

Definition openai_down (p : Provider) : bool :=
  match p with OpenAIClient => true | _ => false end.

Definition all_up (p : Provider) : bool := false.

(** Claude and Gemini configured, Gemini failing. *)
Definition env_claude_gemini : Env :=
  env_with (settings_with true false true) gemini_down.

(** Only OpenAI configured, and failing. *)
Definition env_openai_only : Env :=
  env_with (settings_with false true false) openai_down.

(** All three configured and working. *)
Definition env_all : Env :=
  env_with (settings_with true true true) all_up.

(** As [env_all], with templates whose fields are the ones the agents pass. *)
Definition env_repaired : Env :=
  mkEnv (settings env_all) (construct_raises env_all)
    (fun t =>
       match t with
       | SYSTEM_ARCHITECT_TEMPLATE => ["requirements"; "current_architecture"]
       | GITHUB_MCP_TEMPLATE => ["repo_context"; "operation"]
       | SELF_EVOLVING_TEMPLATE => ["previous_interaction"; "feedback"; "outcome"]
       | t => shipped_fields t
       end)
    (github_fetch env_all) (prompt_of env_all) (result_of env_all)
    (client_generate env_all) (client_stream_generate env_all)
    (self_evolving_template env_all) (json_dumps env_all)
    (now_isoformat env_all).

(** All three providers registered, Gemini failing. *)
Definition env_gemini_down : Env :=
  env_with (settings_with true true true) gemini_down.

Definition rate_limited : Exn := ProviderError "403 API rate limit exceeded".

(** As [env_all], with a GitHub token configured and GitHub refusing every
    call. *)
Definition env_github_down : Env :=
  mkEnv
    (mkSettings
       (anthropic_api_key (settings env_all))
       (openai_api_key (settings env_all))
       (gemini_api_key (settings env_all))
       (Some "ghp_0123456789abcdefghij")
       (default_model (settings env_all)) (claude_model (settings env_all))
       (openai_model (settings env_all)) (gemini_model (settings env_all))
       (enable_fallback (settings env_all)))
    (construct_raises env_all) (template_fields env_all)
    (fun _ _ => Some rate_limited)
    (prompt_of env_all) (result_of env_all)
    (client_generate env_all) (client_stream_generate env_all)
    (self_evolving_template env_all) (json_dumps env_all)
    (now_isoformat env_all).

Definition search_kwargs : kwargs :=
  [("search_query", PStr "def route_request")].

Definition repo_kwargs : kwargs :=
  [("repo_url", PStr "https://github.com/python/cpython")].

(** The state [__init__] builds for Claude (primary) and Gemini. *)
Definition world_claude_gemini : World :=
  mkWorld [("claude", claude); ("gemini", gemini)] claude
    (Some claude) (Some claude) (Some claude) (Some claude) (Some claude)
    [] [].

(** The state [__init__] builds for OpenAI alone. *)
Definition world_openai_only : World :=
  mkWorld [("openai", openai)] openai
    (Some openai) (Some openai) (Some openai) (Some openai) (Some openai)
    [] [].

Definition world_all : World :=
  mkWorld [("claude", claude); ("openai", openai); ("gemini", gemini)] claude
    (Some claude) (Some claude) (Some claude) (Some claude) (Some claude)
    [] [].

Definition generate_kwargs : kwargs :=
  [("prompt", PStr "add two numbers"); ("language", PStr "python")].

Definition quick_check_kwargs : kwargs :=
  [("code", PStr "eval(input())"); ("check_type", PStr "security")].

(** A feedback record about a task of the given type. *)
Definition record (task_type stamp : string) : Learning :=
  mkLearning stamp "analysis" [("task_type", PStr task_type)]
    "feedback" "success" "claude-sonnet-4-20250514".

(** Seven records: six about ["review"], the second one about ["generate"]. *)
Definition history7 : list Learning :=
  [record "review" "t1"; record "generate" "t2"; record "review" "t3";
   record "review" "t4"; record "review" "t5"; record "review" "t6";
   record "review" "t7"].

Definition world_history7 : World := with_history history7 world_all.

End Scenario.

(** * Properties *)

(** ** How a computation moves the call log and the registry *)

Module Frame.
Section WithEnv.

Variable env : Env.

Import PyM.

Lemma steps_refl w : steps 0 w w.
Proof. unfold steps. repeat split; lia. Qed.

Lemma steps_trans n m w1 w2 w3 :
  steps n w1 w2 -> steps m w2 w3 -> steps (n + m) w1 w3.
Proof.
  unfold steps. intros (L1 & P1 & T1) (L2 & P2 & T2).
  repeat split; try congruence; lia.
Qed.

Lemma steps_weaken n m w w' : n <= m -> steps n w w' -> steps m w w'.
Proof. unfold steps. intros Hle (L & P & T). repeat split; auto; lia. Qed.

Lemma steps_with_agent_llm a l w : steps 0 w (with_agent_llm a l w).
Proof. destruct a; unfold steps, Agents.tick; simpl; repeat split; lia. Qed.

Lemma steps_with_call c w : steps 1 w (with_call c w).
Proof.
  unfold steps, Agents.tick. simpl. rewrite length_app. simpl.
  repeat split; lia.
Qed.

Lemma steps_with_history h w : steps 0 w (with_history h w).
Proof. unfold steps, Agents.tick; simpl; repeat split; lia. Qed.

Lemma py_steps_ret {A} (a : A) : py_steps 0 (ret a).
Proof. intro w. apply steps_refl. Qed.

Lemma py_steps_raise {A} e : py_steps 0 (@raise A e).
Proof. intro w. apply steps_refl. Qed.

Lemma py_steps_bind {A B} n m (c : Py A) (k : A -> Py B) :
  py_steps n c -> (forall a, py_steps m (k a)) -> py_steps (n + m) (bind c k).
Proof.
  intros Hc Hk w. unfold bind. specialize (Hc w).
  destruct (c w) as [[e | a] w1]; simpl in Hc.
  - simpl. eapply steps_weaken; [|exact Hc]. lia.
  - eapply steps_trans; [exact Hc | apply Hk].
Qed.

Lemma py_steps_try_except {A} n m (c : Py A) (h : Exn -> Py A) :
  py_steps n c -> (forall e, py_steps m (h e)) ->
  py_steps (n + m) (try_except c h).
Proof.
  intros Hc Hh w. unfold try_except. specialize (Hc w).
  destruct (c w) as [[e | a] w1]; simpl in Hc.
  - eapply steps_trans; [exact Hc | apply Hh].
  - simpl. eapply steps_weaken; [|exact Hc]. lia.
Qed.

Lemma py_steps_weaken {A} n m (c : Py A) :
  n <= m -> py_steps n c -> py_steps m c.
Proof. intros Hle Hc w. eapply steps_weaken; eauto. Qed.

Lemma py_steps_llm_generate self args :
  py_steps 1 (Agents.llm_generate env self args).
Proof.
  intro w. unfold Agents.llm_generate.
  destruct (agent_llm self w); simpl.
  - apply steps_with_call.
  - eapply steps_weaken; [|apply steps_refl]. lia.
Qed.

Lemma py_steps_bind_kwargs sig kw : py_steps 0 (Agents.bind_kwargs sig kw).
Proof.
  unfold Agents.bind_kwargs. destruct (bind_error sig kw).
  - apply py_steps_raise.
  - apply py_steps_ret.
Qed.

Lemma fetch_outcome op kw w :
  Agents.fetch env op kw w = (inr tt, w) \/
  exists e, Agents.fetch env op kw w = (inl e, w).
Proof.
  unfold Agents.fetch, Agents.github_call, try_except, ret.
  destruct op; auto.
  - destruct (github_fetch env kw (Agents.tick w)); eauto.
  - destruct (Agents.authenticated env); auto.
    destruct (github_fetch env kw (Agents.tick w)); auto.
Qed.

Lemma py_steps_fetch op kw : py_steps 0 (Agents.fetch env op kw).
Proof.
  intro w.
  destruct (fetch_outcome op kw w) as [H | [e H]]; rewrite H;
    apply steps_refl.
Qed.

Lemma py_steps_format_template t names :
  py_steps 0 (Agents.format_template env t names).
Proof.
  unfold Agents.format_template.
  destruct (format_error _ names); [apply py_steps_raise | apply py_steps_ret].
Qed.

Lemma py_steps_format_for op : py_steps 0 (Agents.format_for env op).
Proof.
  unfold Agents.format_for.
  destruct (format_call op) as [[t names]|];
    [apply py_steps_format_template | apply py_steps_ret].
Qed.

Lemma py_steps_agent_method op kw :
  py_steps 1 (Agents.agent_method env op kw).
Proof.
  unfold Agents.agent_method.
  apply (py_steps_bind (n := 0) (m := 1)); [apply py_steps_bind_kwargs|].
  intros _.
  apply (py_steps_try_except (n := 1) (m := 0)); [|intro; apply py_steps_raise].
  apply (py_steps_bind (n := 0) (m := 1)); [apply py_steps_fetch|].
  intros _.
  apply (py_steps_bind (n := 0) (m := 1)); [apply py_steps_format_for|].
  intros _.
  apply (py_steps_bind (n := 0) (m := 1)).
  - intro w. apply steps_refl.
  - intro args.
    apply (py_steps_bind (n := 1) (m := 0)); [apply py_steps_llm_generate|].
    intro. apply py_steps_ret.
Qed.

Lemma py_steps_learn_from_feedback p f o t :
  py_steps 1 (Agents.learn_from_feedback env p f o t).
Proof.
  unfold Agents.learn_from_feedback.
  apply (py_steps_bind (n := 0) (m := 1)); [apply py_steps_format_template|].
  intros _.
  apply (py_steps_try_except (n := 1) (m := 0)); [|intro; apply py_steps_raise].
  apply (py_steps_bind (n := 1) (m := 0)); [apply py_steps_llm_generate|].
  intro response.
  apply (py_steps_bind (n := 0) (m := 0)); [intro w; apply steps_refl|].
  intro learning.
  apply (py_steps_bind (n := 0) (m := 0)); [|intro; apply py_steps_ret].
  intro w. apply steps_with_history.
Qed.

Lemma py_steps_adapt_strategy tt c t :
  py_steps 1 (Agents.adapt_strategy env tt c t).
Proof.
  intro w. unfold Agents.adapt_strategy.
  match goal with
  | |- steps 1 w (snd (try_except ?c ?h w)) =>
      apply (@py_steps_try_except _ 1 0 c h)
  end; [|intro; apply py_steps_raise].
  apply (py_steps_bind (n := 1) (m := 0)); [apply py_steps_llm_generate|].
  intro. apply py_steps_ret.
Qed.

Lemma py_steps_learn_from_feedback_kw kw :
  py_steps 1 (Agents.learn_from_feedback_kw env kw).
Proof.
  unfold Agents.learn_from_feedback_kw.
  apply (py_steps_bind (n := 0) (m := 1)); [apply py_steps_bind_kwargs|].
  intros _.
  repeat match goal with
         | |- py_steps _ (match ?x with _ => _ end) => destruct x
         end;
    try (apply (py_steps_weaken (n := 0)); [lia | apply py_steps_raise]).
  apply (py_steps_bind (n := 1) (m := 0));
    [apply py_steps_learn_from_feedback | intro; apply py_steps_ret].
Qed.

Lemma py_steps_adapt_strategy_kw kw :
  py_steps 1 (Agents.adapt_strategy_kw env kw).
Proof.
  unfold Agents.adapt_strategy_kw.
  apply (py_steps_bind (n := 0) (m := 1)); [apply py_steps_bind_kwargs|].
  intros _.
  repeat match goal with
         | |- py_steps _ (match ?x with _ => _ end) => destruct x
         end;
    try (apply (py_steps_weaken (n := 0)); [lia | apply py_steps_raise]);
    apply py_steps_adapt_strategy.
Qed.

Lemma py_steps_swap_llm a m t : py_steps 0 (Orchestrator.swap_llm a m t).
Proof.
  unfold Orchestrator.swap_llm. destruct (truthy m); [|apply py_steps_ret].
  apply (py_steps_bind (n := 0) (m := 0)); [intro w; apply steps_refl|].
  intro. apply (py_steps_bind (n := 0) (m := 0)); [|intro; apply py_steps_ret].
  intro w. apply steps_with_agent_llm.
Qed.

Lemma py_steps_restore_llm a o : py_steps 0 (Orchestrator.restore_llm a o).
Proof.
  destruct o; simpl; [|apply py_steps_ret].
  intro w. apply steps_with_agent_llm.
Qed.

Lemma py_steps_swapped a m t (c : Py dict) :
  py_steps 1 c ->
  py_steps 1
    (bind (Orchestrator.swap_llm a m t)
       (fun original_llm =>
          bind c (fun result =>
            bind (Orchestrator.restore_llm a original_llm)
              (fun _ => ret result)))).
Proof.
  intro Hc.
  apply (py_steps_bind (n := 0) (m := 1)); [apply py_steps_swap_llm|].
  intro. apply (py_steps_bind (n := 1) (m := 0)); [exact Hc|].
  intro. apply (py_steps_bind (n := 0) (m := 0)); [apply py_steps_restore_llm|].
  intro. apply py_steps_ret.
Qed.

Lemma py_steps_route_dispatch t m kw :
  py_steps 1 (Orchestrator.route_dispatch env t m kw).
Proof.
  intro w. unfold Orchestrator.route_dispatch.
  repeat match goal with
         | |- context [if String.eqb t ?s then _ else _] =>
             destruct (String.eqb t s)
         end;
    try (apply py_steps_swapped);
    try apply py_steps_agent_method;
    try apply py_steps_learn_from_feedback_kw;
    try apply py_steps_adapt_strategy_kw.
  apply (py_steps_weaken (n := 0)); [lia | apply py_steps_raise].
Qed.

End WithEnv.
End Frame.

(** ** Routing and fallback *)

Module Routing.
Section WithEnv.

Variable env : Env.

Import PyM.

(** One unfolding of the recursion. *)
Lemma route_request_unfold t m kw w :
  Orchestrator.route_request env t m kw w =
  match Orchestrator.route_dispatch env t m kw w with
  | (inr result, w') => (inr result, w')
  | (inl e, w') =>
      if Orchestrator.fallback_eligible env m w'
      then Orchestrator.route_request env t (Some "openai") kw w'
      else (inl e, w')
  end.
Proof.
  funelim (Orchestrator.route_request env t m kw w).
  - rewrite Heq. reflexivity.
  - rewrite Heq. simpl. rewrite Hretry. reflexivity.
  - rewrite Heq. simpl.
    match goal with H : Orchestrator.fallback_eligible _ _ _ = false |- _ =>
      rewrite H end.
    reflexivity.
Qed.

(** A request for ["openai"] never passes the test of the handler. *)
Lemma openai_not_eligible w :
  Orchestrator.fallback_eligible env (Some "openai") w = false.
Proof.
  unfold Orchestrator.fallback_eligible. simpl.
  rewrite andb_false_r. reflexivity.
Qed.

(** So the retry is a single attempt. *)
Lemma route_request_openai t kw w :
  Orchestrator.route_request env t (Some "openai") kw w =
  Orchestrator.route_dispatch env t (Some "openai") kw w.
Proof.
  rewrite route_request_unfold.
  destruct (Orchestrator.route_dispatch env t (Some "openai") kw w)
    as [[e | r] w'];
    [rewrite openai_not_eligible|]; reflexivity.
Qed.

Lemma route_dispatch_unknown t m kw w :
  ~ In t task_types ->
  Orchestrator.route_dispatch env t m kw w =
  (inl (ValueError ("Unknown task type: " ++ t)%string), w).
Proof.
  intro Hnot. unfold Orchestrator.route_dispatch.
  repeat match goal with
         | |- context [if String.eqb t ?s then _ else _] =>
             destruct (String.eqb_spec t s) as [-> | _];
             [exfalso; apply Hnot; unfold task_types; simpl; tauto|]
         end.
  reflexivity.
Qed.

(** C5. [route_request] makes at most one fallback retry.  Its outcome is
    that of the first attempt, or, when the first attempt raised and the
    fallback test passed, exactly the outcome of one second attempt that
    asks for ["openai"]: if that one raises too, its exception and the state
    it left are what the caller gets, with no third attempt.  In all, at most
    two client calls are made. *)
Theorem route_request_at_most_one_retry t m kw w :
  (Orchestrator.route_request env t m kw w =
     Orchestrator.route_dispatch env t m kw w
   \/
   exists e1 w1,
     Orchestrator.route_dispatch env t m kw w = (inl e1, w1) /\
     Orchestrator.fallback_eligible env m w1 = true /\
     Orchestrator.route_request env t m kw w =
       Orchestrator.route_dispatch env t (Some "openai") kw w1)
  /\
  Agents.tick (snd (Orchestrator.route_request env t m kw w))
    <= Agents.tick w + 2.
Proof.
  rewrite route_request_unfold.
  pose proof (Frame.py_steps_route_dispatch env t m kw w) as H1.
  destruct (Orchestrator.route_dispatch env t m kw w) as [[e1 | r] w1] eqn:E1;
    simpl in H1.
  - destruct (Orchestrator.fallback_eligible env m w1) eqn:El.
    + rewrite route_request_openai.
      pose proof (Frame.py_steps_route_dispatch env t (Some "openai") kw w1)
        as H2.
      split.
      * right. exists e1, w1. auto.
      * unfold steps in H1, H2. lia.
    + split; [left; reflexivity|]. unfold steps in H1. simpl. lia.
  - split; [left; reflexivity|]. unfold steps in H1. simpl. lia.
Qed.

(** C6. A task type outside the eleven known ones makes [route_request]
    raise [ValueError("Unknown task type: ...")], whatever the payload, the
    requested model and the fallback setting; nothing is called and the
    state is left as it was. *)
Theorem route_request_unknown_task_type t m kw w :
  ~ In t task_types ->
  Orchestrator.route_request env t m kw w =
  (inl (ValueError ("Unknown task type: " ++ t)%string), w).
Proof.
  intro Hnot. rewrite route_request_unfold.
  rewrite (route_dispatch_unknown m kw w Hnot).
  destruct (Orchestrator.fallback_eligible env m w); [|reflexivity].
  rewrite route_request_openai.
  apply route_dispatch_unknown. exact Hnot.
Qed.

End WithEnv.
End Routing.

(** ** The defects of [route_request] and [stream_generate], on concrete runs *)

Module Runs.

Import Scenario.

Lemma init_claude_gemini :
  Orchestrator.init env_claude_gemini = inr world_claude_gemini.
Proof. vm_compute. reflexivity. Qed.

Lemma init_openai_only :
  Orchestrator.init env_openai_only = inr world_openai_only.
Proof. vm_compute. reflexivity. Qed.

Lemma init_all : Orchestrator.init env_all = inr world_all.
Proof. vm_compute. reflexivity. Qed.

(** C1. Claude is primary, Gemini is registered and failing, and code
    generation is requested on ["gemini"].  The call raises Gemini's
    exception, and the code generator, bound to Claude before the call, is
    left bound to Gemini: the assignment that restores [original_llm] sits
    after the awaited call and is skipped when that call raises. *)
Theorem route_request_fault_leaves_agent_rebound :
  exists w',
    Orchestrator.route_request env_claude_gemini "generate" (Some "gemini")
      generate_kwargs world_claude_gemini = (inl unavailable, w') /\
    code_generator_llm world_claude_gemini = Some claude /\
    code_generator_llm w' = Some gemini /\
    code_generator_llm w' <> code_generator_llm world_claude_gemini.
Proof.
  eexists. split; [vm_compute; reflexivity|].
  split; [reflexivity|]. split; [reflexivity|].
  simpl. discriminate.
Qed.

(** The same leak behind a successful result: with all three providers
    registered and Gemini failing, the retry on OpenAI succeeds, and the
    code generator ends up bound to Gemini. *)
Lemma route_request_fallback_success_leaves_agent_rebound :
  exists result w',
    Orchestrator.route_request
      (env_with (settings_with true true true) gemini_down)
      "generate" (Some "gemini") generate_kwargs world_all
      = (inr result, w') /\
    called w' = [gemini; openai] /\
    code_generator_llm world_all = Some claude /\
    code_generator_llm w' = Some gemini.
Proof.
  do 2 eexists. split; [vm_compute; reflexivity|].
  repeat split; reflexivity.
Qed.

(** A failure that needs no provider outage: [SYSTEM_ARCHITECT_TEMPLATE] as
    shipped has the field [{code}], which [design_architecture] does not pass,
    so every architecture request raises [KeyError] after the swap, and a
    request that names a model leaves the architect bound to it. *)
Lemma route_request_architecture_leaves_agent_rebound :
  exists w',
    Orchestrator.route_request
      (env_with (settings_with true false true) all_up)
      "architecture" (Some "gemini")
      [("requirements", PStr "a service that stores user notes")]
      world_claude_gemini = (inl (KeyError "code"), w') /\
    system_architect_llm world_claude_gemini = Some claude /\
    system_architect_llm w' = Some gemini /\
    called w' = [].
Proof.
  eexists. split; [vm_compute; reflexivity|].
  repeat split; reflexivity.
Qed.

(** C2. OpenAI is the only client, hence the primary, and it fails.  A
    request that names no model is served by OpenAI; the handler tests the
    requested name ([None != 'openai']), so it retries on ["openai"]: the
    failed client is called a second time. *)
Theorem route_request_retries_on_failed_openai :
  exists w',
    Orchestrator.route_request env_openai_only "generate" None
      generate_kwargs world_openai_only = (inl unavailable, w') /\
    primary_llm world_openai_only = openai /\
    code_generator_llm world_openai_only = Some openai /\
    called w' = [openai; openai].
Proof.
  eexists. split; [vm_compute; reflexivity|].
  repeat split; reflexivity.
Qed.

(** The converse miss: a quick check that asks for ["openai"] runs on the
    reviewer's bound client, Claude; when Claude fails there is no retry,
    although OpenAI is registered, working, and was not the client used. *)
Lemma route_request_no_retry_when_openai_named :
  exists w',
    Orchestrator.route_request
      (env_with (settings_with true true true)
         (fun p => match p with ClaudeSonnetClient => true | _ => false end))
      "quick-check" (Some "openai") quick_check_kwargs world_all
      = (inl unavailable, w') /\
    called w' = [claude].
Proof. eexists. split; [vm_compute; reflexivity|]. reflexivity. Qed.

(** C3. A quick check that asks for ["gemini"], a registered client, calls
    [generate] on Claude, the reviewer's bound client: the branch for
    ["quick-check"] never looks at [model]. *)
Theorem route_request_quick_check_ignores_model :
  exists result w',
    Orchestrator.route_request env_claude_gemini "quick-check"
      (Some "gemini") quick_check_kwargs world_claude_gemini
      = (inr result, w') /\
    Dict.get (llms world_claude_gemini) "gemini" = Some gemini /\
    called w' = [claude] /\
    Dict.get result "model_used" = Some (PStr (model claude)).
Proof.
  do 2 eexists. split; [vm_compute; reflexivity|].
  repeat split; reflexivity.
Qed.

(** The handler itself depends on [model] being honoured: when a quick check
    fails on Claude, the retry that asks for ["openai"] calls Claude again. *)
Lemma route_request_quick_check_fallback_same_client :
  exists w',
    Orchestrator.route_request
      (env_with (settings_with true true true)
         (fun p => match p with ClaudeSonnetClient => true | _ => false end))
      "quick-check" None quick_check_kwargs world_all
      = (inl unavailable, w') /\
    called w' = [claude; claude].
Proof. eexists. split; [vm_compute; reflexivity|]. reflexivity. Qed.

(** C4. Streaming with a name that is not registered: [self.llms.get(model)]
    is [None], the code generator is bound to it, and the consumer receives
    a single error fragment; no client is called, the primary included. *)
Theorem stream_generate_unknown_model_not_primary :
  exists w',
    Dict.mem "mistral" (llms world_claude_gemini) = false /\
    Orchestrator.stream_generate env_claude_gemini (Some "mistral")
      generate_kwargs world_claude_gemini
      = ([Orchestrator.error_fragment
            (AttributeError
               "'NoneType' object has no attribute 'stream_generate'")],
         None, w') /\
    called w' = [].
Proof.
  eexists. split; [reflexivity|].
  split; [vm_compute; reflexivity|]. reflexivity.
Qed.

(** The same name in [route_request] is served by the primary. *)
Lemma route_request_unknown_model_uses_primary :
  exists result w',
    Orchestrator.route_request env_claude_gemini "generate" (Some "mistral")
      generate_kwargs world_claude_gemini = (inr result, w') /\
    called w' = [claude].
Proof. do 2 eexists. split; [vm_compute; reflexivity|]. reflexivity. Qed.

Lemma route_request_unknown_task_type_witness :
  ~ In "translate" task_types /\
  Orchestrator.fallback_eligible env_all (Some "gemini") world_all = true /\
  Orchestrator.route_request env_all "translate" (Some "gemini")
    generate_kwargs world_all
  = (inl (ValueError "Unknown task type: translate"), world_all).
Proof.
  assert (Hnot : ~ In "translate" task_types)
    by (unfold task_types; simpl; intuition discriminate).
  split; [exact Hnot|]. split; [reflexivity|].
  exact (@Routing.route_request_unknown_task_type env_all "translate"
           (Some "gemini") generate_kwargs world_all Hnot).
Defined.

End Runs.

(** ** Rebinding around a dispatched call *)

Module Rebinding.
Section WithEnv.

Variable env : Env.

Import PyM.

(** An agent method changes no binding. *)
Lemma agent_method_bindings op kw w a :
  agent_llm a (snd (Agents.agent_method env op kw w)) = agent_llm a w.
Proof.
  unfold Agents.agent_method, bind, try_except, Agents.bind_kwargs,
    Agents.build_prompt, Agents.llm_generate.
  destruct (bind_error (signature op) kw); [reflexivity|].
  unfold ret at 1.
  assert (Hfetch : Agents.fetch env op kw w = (inr tt, w) \/
                   exists e, Agents.fetch env op kw w = (inl e, w)).
  { apply Frame.fetch_outcome. }
  destruct Hfetch as [-> | [e ->]]; [|reflexivity].
  assert (Hformat : Agents.format_for env op w = (inr tt, w) \/
                    exists e, Agents.format_for env op w = (inl e, w)).
  { unfold Agents.format_for, Agents.format_template, raise, ret.
    destruct (format_call op) as [[t names]|]; auto.
    destruct (format_error _ names); eauto. }
  destruct Hformat as [-> | [e ->]]; [|reflexivity].
  destruct (agent_llm (owner op) w); [|reflexivity].
  destruct (client_generate env _ _ _); destruct a; reflexivity.
Qed.

Lemma get_llm_unknown m w :
  Dict.mem m (llms w) = false ->
  Orchestrator.get_llm (Some m) w = primary_llm w.
Proof.
  intro H. unfold Orchestrator.get_llm. rewrite H.
  rewrite andb_false_r. reflexivity.
Qed.

Lemma get_llm_registered m w llm :
  truthy (Some m) = true -> Dict.get (llms w) m = Some llm ->
  Orchestrator.get_llm (Some m) w = llm.
Proof.
  intros Ht Hget. unfold Orchestrator.get_llm, Dict.mem.
  rewrite Ht, Hget. reflexivity.
Qed.

(** When code generation returns, the code generator has the client it had
    before the call. *)
Lemma generate_success_restores m kw w result w' llm0 :
  code_generator_llm w = Some llm0 ->
  Orchestrator.route_dispatch env "generate" m kw w = (inr result, w') ->
  code_generator_llm w' = Some llm0.
Proof.
  intros Hbound. unfold Orchestrator.route_dispatch. simpl.
  unfold Orchestrator.swap_llm, Agents.generate_code.
  destruct (truthy m); unfold bind, read_llm, write_llm, ret; simpl.
  - rewrite Hbound.
    pose proof (agent_method_bindings generate_code_op kw
                  (with_agent_llm code_generator
                     (Some (Orchestrator.get_llm m w)) w) code_generator)
      as Hsame.
    destruct (Agents.agent_method env generate_code_op kw _)
      as [[e | r] w1]; [discriminate|].
    simpl. intro H. inversion H. reflexivity.
  - pose proof (agent_method_bindings generate_code_op kw w code_generator)
      as Hsame.
    destruct (Agents.agent_method env generate_code_op kw w)
      as [[e | r] w1]; [discriminate|].
    simpl in *. intro H. inversion H. subst. congruence.
Qed.

(** When it raises after a swap, the code generator keeps the target. *)
Lemma generate_fault_keeps_target m kw w e w' :
  truthy m = true ->
  Orchestrator.route_dispatch env "generate" m kw w = (inl e, w') ->
  code_generator_llm w' = Some (Orchestrator.get_llm m w).
Proof.
  intros Ht. unfold Orchestrator.route_dispatch. simpl.
  unfold Orchestrator.swap_llm, Agents.generate_code. rewrite Ht.
  unfold bind, read_llm, write_llm, ret; simpl.
  pose proof (agent_method_bindings generate_code_op kw
                (with_agent_llm code_generator
                   (Some (Orchestrator.get_llm m w)) w) code_generator)
    as Hsame.
  destruct (Agents.agent_method env generate_code_op kw _)
    as [[e1 | r] w1].
  - intro H. inversion H. subst. exact Hsame.
  - simpl. destruct (code_generator_llm w); discriminate.
Qed.

End WithEnv.
End Rebinding.

(** ** The feedback history *)

Module History.
Section WithEnv.

Variable env : Env.

Import PyM.

Lemma last_n_suffix {A} n (l : list A) :
  exists older, l = older ++ last_n n l.
Proof.
  exists (firstn (length l - n) l). unfold last_n.
  symmetry. apply firstn_skipn.
Qed.

Lemma last_n_length {A} n (l : list A) :
  length (last_n n l) = Nat.min n (length l).
Proof. unfold last_n. rewrite length_skipn. lia. Qed.

Lemma last_n_all {A} n (l : list A) : length l <= n -> last_n n l = l.
Proof.
  intro Hle. unfold last_n.
  replace (length l - n) with 0 by lia. reflexivity.
Qed.

Lemma task_type_matches_iff task_type h :
  Agents.task_type_matches task_type h = true <->
  Dict.get (previous_interaction h) "task_type" = Some (PStr task_type).
Proof.
  unfold Agents.task_type_matches.
  destruct (Dict.get (previous_interaction h) "task_type") as [[| | | | s | |]|];
    try (split; [discriminate | intro H; discriminate H]).
  destruct (String.eqb_spec s task_type) as [-> | Hne].
  - split; reflexivity.
  - split; [discriminate|]. intro H. inversion H. contradiction.
Qed.

(** C7. [adapt_strategy] hands the prompt construction the matching
    records only, at most five of them, the most recent ones, in insertion
    order.  A record matches when its stored interaction has the string
    [task_type] under the key ["task_type"]; the selection is a suffix of the
    matching records (oldest first, as stored), of length [min 5 n]: all of
    them when there are five or fewer, the last five otherwise.  The system
    prompt sent to the client is built from that selection. *)
Theorem adapt_strategy_uses_last_five_matching
    task_type context temperature w llm :
  self_evolving_llm w = Some llm ->
  let matching h :=
    match Dict.get (previous_interaction h) "task_type" with
    | Some (PStr s) => String.eqb s task_type
    | _ => false
    end in
  let all_matching := filter matching (interaction_history w) in
  let relevant := Agents.relevant_history task_type (interaction_history w) in
  (forall h, In h all_matching <->
             In h (interaction_history w) /\
             Dict.get (previous_interaction h) "task_type"
               = Some (PStr task_type)) /\
  (exists older, all_matching = older ++ relevant) /\
  length relevant = Nat.min 5 (length all_matching) /\
  (length all_matching <= 5 -> relevant = all_matching) /\
  llm_calls (snd (Agents.adapt_strategy env task_type context temperature w))
    = llm_calls w ++
      [(Generate, llm,
        mkGenArgs (Agents.adapt_system_prompt env task_type relevant)
          (Agents.adapt_user_prompt task_type context)
          temperature (PInt 2048))].
Proof.
  intros Hllm matching all_matching relevant.
  split; [|split; [|split; [|split]]].
  - intro h. unfold all_matching. rewrite filter_In.
    change (matching h) with (Agents.task_type_matches task_type h).
    rewrite task_type_matches_iff. reflexivity.
  - apply last_n_suffix.
  - apply last_n_length.
  - apply last_n_all.
  - unfold Agents.adapt_strategy, try_except, bind, Agents.llm_generate.
    simpl. rewrite Hllm.
    destruct (client_generate env llm _ (Agents.tick w)); reflexivity.
Qed.

(** C10. [learn_from_feedback] touches the history only by one final
    append.  If it raises, the history is what it was; if it returns a
    record, the history is the old one followed by that record.  Once the
    template is filled, it raises exactly when the client's [generate] does,
    with the same exception, and otherwise the record carries the response's
    content and model together with the arguments; a template that cannot be
    filled raises its [KeyError] before any client is called. *)
Theorem learn_from_feedback_atomic previous feedback outcome temperature w :
  let run :=
    Agents.learn_from_feedback env previous feedback outcome temperature w in
  match fst run with
  | inl _ => interaction_history (snd run) = interaction_history w
  | inr learning =>
      interaction_history (snd run) = interaction_history w ++ [learning]
  end
  /\
  match
    format_error (template_fields env SELF_EVOLVING_TEMPLATE)
      learn_format_names
  with
  | Some e => run = (inl e, w)
  | None =>
      match self_evolving_llm w with
      | Some llm =>
          match
            client_generate env llm
              (mkGenArgs
                 (self_evolving_template env previous feedback outcome)
                 Agents.learn_user_prompt temperature (PInt 2048))
              (Agents.tick w)
          with
          | inl e => fst run = inl e
          | inr response =>
              exists stamp,
                fst run =
                inr (mkLearning stamp (content response) previous feedback
                       outcome (resp_model response))
          end
      | None => exists e, fst run = inl e
      end
  end.
Proof.
  unfold Agents.learn_from_feedback, Agents.format_template, try_except,
    bind, Agents.llm_generate, Agents.history_append.
  destruct (format_error _ learn_format_names) as [e0|];
    [split; reflexivity|].
  unfold ret, raise. simpl.
  destruct (self_evolving_llm w) as [llm|]; simpl.
  - destruct (client_generate env llm _ (Agents.tick w)) as [e | response];
      simpl.
    + split; reflexivity.
    + split; [reflexivity|]. eexists. reflexivity.
  - split; [reflexivity|]. eexists. reflexivity.
Qed.

(** With [SELF_EVOLVING_TEMPLATE] as shipped (fields [{feedback}] and
    [{context}]), [learn_from_feedback] raises [KeyError('context')] before it
    reaches the client, whatever its arguments. *)
Lemma learn_from_feedback_shipped_template
    previous feedback outcome temperature w :
  template_fields env SELF_EVOLVING_TEMPLATE
    = shipped_fields SELF_EVOLVING_TEMPLATE ->
  Agents.learn_from_feedback env previous feedback outcome temperature w
    = (inl (KeyError "context"), w).
Proof.
  intro Hshipped.
  unfold Agents.learn_from_feedback, Agents.format_template, bind.
  rewrite Hshipped. reflexivity.
Qed.

End WithEnv.

(** With a template that has only fields the call passes, a successful call
    appends its record. *)
Lemma learn_from_feedback_appends :
  exists learning w',
    Agents.learn_from_feedback Scenario.env_repaired
      [("task_type", PStr "review")] "too verbose" "partial" (PFloat "0.4")
      Scenario.world_all = (inr learning, w') /\
    interaction_history w' = [learning] /\
    analysis learning = "def add(a, b): return a + b".
Proof. do 2 eexists. split; [vm_compute; reflexivity|]. split; reflexivity. Qed.

Lemma adapt_strategy_uses_last_five_matching_witness :
  self_evolving_llm Scenario.world_history7 = Some Scenario.claude /\
  Agents.relevant_history "review"
    (interaction_history Scenario.world_history7)
  = [Scenario.record "review" "t3"; Scenario.record "review" "t4";
     Scenario.record "review" "t5"; Scenario.record "review" "t6";
     Scenario.record "review" "t7"] /\
  llm_calls
    (snd (Agents.adapt_strategy Scenario.env_all "review" None (PFloat "0.3")
            Scenario.world_history7))
  = llm_calls Scenario.world_history7 ++
    [(Generate, Scenario.claude,
      mkGenArgs
        (Agents.adapt_system_prompt Scenario.env_all "review"
           (Agents.relevant_history "review"
              (interaction_history Scenario.world_history7)))
        (Agents.adapt_user_prompt "review" None)
        (PFloat "0.3") (PInt 2048))].
Proof.
  split; [reflexivity|]. split; [reflexivity|].
  exact (proj2 (proj2 (proj2 (proj2
    (@adapt_strategy_uses_last_five_matching Scenario.env_all "review" None
       (PFloat "0.3") Scenario.world_history7 Scenario.claude
       eq_refl))))).
Defined.

End History.

(** ** Initialization *)

Module Startup.
Section WithEnv.

Variable env : Env.

Lemma register_constructs key name p model0 llms0 :
  Orchestrator.register env key name p model0 llms0 =
  match key, construct_raises env p with
  | Some k, None =>
      if truthy (Some k) then Dict.set llms0 name (mkLLM p k model0)
      else llms0
  | _, _ => llms0
  end.
Proof.
  unfold Orchestrator.register.
  destruct key as [k|]; [|reflexivity].
  destruct (truthy (Some k)), (construct_raises env p); reflexivity.
Qed.

(** The registry [__init__] builds holds the successfully constructed
    clients, in configuration order. *)
Lemma configured_llms_constructed :
  Orchestrator.configured_llms env = constructed env.
Proof.
  unfold Orchestrator.configured_llms, constructed, constructs,
    configuration_order.
  rewrite !register_constructs. simpl.
  destruct (anthropic_api_key (settings env)) as [k1|],
           (openai_api_key (settings env)) as [k2|],
           (gemini_api_key (settings env)) as [k3|],
           (construct_raises env ClaudeSonnetClient),
           (construct_raises env OpenAIClient),
           (construct_raises env GeminiClient);
    simpl;
    repeat match goal with
           | |- context [String.eqb ?k ""] => destruct (String.eqb k "")
           end;
    reflexivity.
Qed.

(** C8. [__init__] raises the no-backend [RuntimeError] exactly when no
    client was successfully constructed, and raises nothing else; a provider
    without a key or whose constructor raises is only left out.  When it
    succeeds, the registry is the list of constructed clients in
    configuration order, and the primary is the entry under the configured
    default name if there is one, the first constructed client otherwise. *)
Theorem init_primary_selection :
  match Orchestrator.init env with
  | inl e =>
      e = RuntimeError Orchestrator.no_llm_message /\ constructed env = []
  | inr w =>
      llms w = constructed env /\
      exists name first rest,
        constructed env = (name, first) :: rest /\
        primary_llm w =
          match Dict.get (constructed env) (default_model (settings env)) with
          | Some llm => llm
          | None => first
          end
  end.
Proof.
  unfold Orchestrator.init. rewrite configured_llms_constructed.
  destruct (constructed env) as [|[name first] rest]; simpl.
  - split; reflexivity.
  - split; [reflexivity|]. exists name, first, rest.
    split; reflexivity.
Qed.

End WithEnv.
End Startup.

(** ** Streaming *)

Module Streaming.
Section WithEnv.

Variable env : Env.

Lemma stream_generate_code_llms kw w :
  llms (snd (Agents.stream_generate_code env kw w)) = llms w.
Proof.
  unfold Agents.stream_generate_code.
  destruct (bind_error _ kw); [reflexivity|].
  unfold GenM.seq, GenM.exec, Agents.format_for, Agents.format_template.
  simpl.
  destruct (format_error _ _); [reflexivity|].
  unfold PyM.ret, GenM.try_except, Agents.llm_stream_generate, GenM.raise.
  destruct (agent_llm code_generator w) as [llm|]; [|reflexivity].
  destruct (client_stream_generate env llm _ _) as [chunks [e|]];
    reflexivity.
Qed.

(** C9. When the stream of the code generator, rebound to the resolved
    target, breaks with exception [e] after [chunks], and fallback is not
    eligible (it is disabled, or ["openai"] was the requested name, or
    ["openai"] is not registered), [stream_generate] yields [chunks], then
    the one fragment ["\n\nError: " + str(e)], and ends normally; the code
    generator gets back the client it had before the call. *)
Theorem stream_generate_fault_without_fallback model0 kw w chunks e w1 :
  Agents.stream_generate_code env kw
    (with_agent_llm code_generator
       (if truthy model0 then Orchestrator.llms_get model0 w
        else Some (primary_llm w)) w)
  = (chunks, Some e, w1) ->
  enable_fallback (settings env) = false \/
  model0 = Some "openai" \/
  Dict.mem "openai" (llms w) = false ->
  Orchestrator.stream_generate env model0 kw w =
  (chunks ++ [(nl ++ nl ++ "Error: " ++ exn_str e)%string], None,
   with_agent_llm code_generator (code_generator_llm w) w1).
Proof.
  intros Hstream Hineligible.
  assert (Hllms : llms w1 = llms w).
  { pose proof (stream_generate_code_llms kw
      (with_agent_llm code_generator
         (if truthy model0 then Orchestrator.llms_get model0 w
          else Some (primary_llm w)) w)) as H.
    rewrite Hstream in H. simpl in H. exact H. }
  assert (Hno : Orchestrator.fallback_eligible env model0 w1 = false).
  { unfold Orchestrator.fallback_eligible. rewrite Hllms.
    destruct Hineligible as [H | [H | H]].
    - rewrite H. reflexivity.
    - rewrite H. simpl. rewrite andb_false_r. reflexivity.
    - rewrite H. apply andb_false_r. }
  unfold Orchestrator.stream_generate, GenM.seq, GenM.exec, PyM.write_llm,
    GenM.try_finally, GenM.try_except.
  rewrite Hstream, Hno. reflexivity.
Qed.

End WithEnv.

Lemma stream_generate_fault_without_fallback_witness :
  Agents.stream_generate_code Scenario.env_claude_gemini
    Scenario.generate_kwargs
    (with_agent_llm code_generator (Some Scenario.gemini)
       Scenario.world_claude_gemini)
  = (["def add("; "a, b"], Some Scenario.unavailable,
     with_call
       (Stream, Scenario.gemini,
        Scenario.prompts stream_generate_code_op Scenario.generate_kwargs)
       (with_agent_llm code_generator (Some Scenario.gemini)
          Scenario.world_claude_gemini)) /\
  Dict.mem "openai" (llms Scenario.world_claude_gemini) = false /\
  Orchestrator.stream_generate Scenario.env_claude_gemini (Some "gemini")
    Scenario.generate_kwargs Scenario.world_claude_gemini
  = (["def add("; "a, b"] ++
     [(nl ++ nl ++ "Error: " ++ "503 Service Unavailable")%string], None,
     with_agent_llm code_generator (Some Scenario.claude)
       (with_call
          (Stream, Scenario.gemini,
           Scenario.prompts stream_generate_code_op Scenario.generate_kwargs)
          (with_agent_llm code_generator (Some Scenario.gemini)
             Scenario.world_claude_gemini))).
Proof.
  split; [reflexivity|]. split; [reflexivity|].
  apply (@stream_generate_fault_without_fallback Scenario.env_claude_gemini
           (Some "gemini") Scenario.generate_kwargs
           Scenario.world_claude_gemini
           ["def add("; "a, b"] Scenario.unavailable
           (with_call
              (Stream, Scenario.gemini,
               Scenario.prompts stream_generate_code_op
                 Scenario.generate_kwargs)
              (with_agent_llm code_generator (Some Scenario.gemini)
                 Scenario.world_claude_gemini))).
  - reflexivity.
  - right. right. reflexivity.
Defined.

End Streaming.

(** ** The shape of one dispatch *)

Module Dispatch.
Section WithEnv.

Variable env : Env.

Import PyM.

Lemma fetch_cases op kw w :
  Agents.fetch env op kw w = (inr tt, w) \/
  exists e, Agents.fetch env op kw w = (inl e, w).
Proof.
  apply Frame.fetch_outcome.
Qed.

Lemma format_template_cases t names w :
  Agents.format_template env t names w = (inr tt, w) \/
  exists e, Agents.format_template env t names w = (inl e, w).
Proof.
  unfold Agents.format_template, raise, ret.
  destruct (format_error _ names); eauto.
Qed.

Lemma format_for_cases op w :
  Agents.format_for env op w = (inr tt, w) \/
  exists e, Agents.format_for env op w = (inl e, w).
Proof.
  unfold Agents.format_for.
  destruct (format_call op) as [[t names]|];
    [apply format_template_cases | left; reflexivity].
Qed.

Lemma bind_kwargs_cases sig kw w :
  Agents.bind_kwargs sig kw w = (inr tt, w) \/
  exists e, Agents.bind_kwargs sig kw w = (inl e, w).
Proof.
  unfold Agents.bind_kwargs, raise, ret.
  destruct (bind_error sig kw); eauto.
Qed.

(** A one-shot method leaves the state alone and raises, or makes one call
    on the client its agent is bound to. *)
Lemma agent_method_effect op kw w :
  let run := Agents.agent_method env op kw w in
  (snd run = w /\ exists e, fst run = inl e) \/
  exists llm args,
    agent_llm (owner op) w = Some llm /\
    snd run = with_call (Generate, llm, args) w.
Proof.
  unfold Agents.agent_method, bind, try_except.
  destruct (bind_kwargs_cases (signature op) kw w) as [-> | [e ->]];
    [|left; simpl; eauto].
  destruct (fetch_cases op kw w) as [-> | [e ->]]; [|left; simpl; eauto].
  destruct (format_for_cases op w) as [-> | [e ->]]; [|left; simpl; eauto].
  unfold Agents.build_prompt, Agents.llm_generate, raise, ret.
  destruct (agent_llm (owner op) w) as [llm|]; [|left; simpl; eauto].
  right. exists llm, (prompt_of env op kw (Agents.tick w)).
  split; [reflexivity|].
  destruct (client_generate env llm _ _); reflexivity.
Qed.

Lemma adapt_strategy_effect task_type context temperature w :
  let run := Agents.adapt_strategy env task_type context temperature w in
  (snd run = w /\ exists e, fst run = inl e) \/
  exists llm args,
    self_evolving_llm w = Some llm /\
    snd run = with_call (Generate, llm, args) w.
Proof.
  unfold Agents.adapt_strategy, bind, try_except, Agents.llm_generate,
    raise, ret.
  simpl agent_llm.
  destruct (self_evolving_llm w) as [llm|]; [|left; simpl; eauto].
  right. do 2 eexists. split; [reflexivity|].
  destruct (client_generate env llm _ _); reflexivity.
Qed.

Lemma adapt_strategy_kw_effect kw w :
  let run := Agents.adapt_strategy_kw env kw w in
  (snd run = w /\ exists e, fst run = inl e) \/
  exists llm args,
    self_evolving_llm w = Some llm /\
    snd run = with_call (Generate, llm, args) w.
Proof.
  unfold Agents.adapt_strategy_kw, bind.
  destruct (bind_kwargs_cases adapt_strategy_signature kw w) as [-> | [e ->]];
    [|left; simpl; eauto].
  repeat match goal with
         | |- context [match ?x with _ => _ end] =>
             match type of x with
             | option PyVal => destruct x
             | PyVal => destruct x
             end
         end;
    try (left; simpl; unfold raise; eauto; fail);
    apply adapt_strategy_effect.
Qed.

(** [learn_from_feedback] raises before any call, or calls the client of the
    self-evolving agent once; the record is appended when, and only when, it
    is returned. *)
Lemma learn_from_feedback_effect previous feedback outcome temperature w :
  let run :=
    Agents.learn_from_feedback env previous feedback outcome temperature w in
  (snd run = w /\ exists e, fst run = inl e) \/
  exists llm args,
    self_evolving_llm w = Some llm /\
    ((snd run = with_call (Generate, llm, args) w /\ exists e, fst run = inl e)
     \/
     exists learning,
       fst run = inr learning /\
       snd run = with_history (interaction_history w ++ [learning])
                   (with_call (Generate, llm, args) w)).
Proof.
  unfold Agents.learn_from_feedback, bind, try_except.
  destruct (format_template_cases SELF_EVOLVING_TEMPLATE learn_format_names w)
    as [-> | [e ->]]; [|left; simpl; eauto].
  unfold Agents.llm_generate, Agents.history_append, raise, ret.
  simpl agent_llm.
  destruct (self_evolving_llm w) as [llm|]; [|left; simpl; eauto].
  right. do 2 eexists. split; [reflexivity|].
  destruct (client_generate env llm _ _) as [e | response]; simpl.
  - left. eauto.
  - right. eexists. split; reflexivity.
Qed.

Lemma learn_from_feedback_kw_effect kw w :
  let run := Agents.learn_from_feedback_kw env kw w in
  (snd run = w /\ exists e, fst run = inl e) \/
  exists llm args,
    self_evolving_llm w = Some llm /\
    ((snd run = with_call (Generate, llm, args) w /\ exists e, fst run = inl e)
     \/
     exists learning,
       fst run = inr (Agents.learning_dict learning) /\
       snd run = with_history (interaction_history w ++ [learning])
                   (with_call (Generate, llm, args) w)).
Proof.
  unfold Agents.learn_from_feedback_kw, bind.
  destruct (bind_kwargs_cases learn_from_feedback_signature kw w)
    as [-> | [e ->]]; [|left; simpl; eauto].
  repeat match goal with
         | |- context [match ?x with _ => _ end] =>
             match type of x with
             | option PyVal => destruct x
             | PyVal => destruct x
             end
         end;
    try (left; simpl; unfold raise; eauto; fail).
  match goal with
  | |- context [Agents.learn_from_feedback env ?p ?f ?o ?t w] =>
      destruct (learn_from_feedback_effect p f o t w)
        as [[Hw [e He]] | (llm & args & Hllm & [[Hw [e He]] | (l & Hl & Hw)])];
      destruct (Agents.learn_from_feedback env p f o t w) as [[e' | l'] w'];
      simpl in *; subst; try discriminate
  end.
  - left. eauto.
  - right. exists llm, args. split; [assumption|]. left. eauto.
  - right. exists llm, args. split; [assumption|]. right.
    inversion Hl. subst. eexists. split; reflexivity.
Qed.

(** A branch that swaps: the method starts with the agent on the target and
    the saved client is put back only after the method has returned. *)
Lemma swapped_block_world a op m kw w :
  owner op = a ->
  let run :=
    bind (Orchestrator.swap_llm a m (Orchestrator.get_llm m w))
      (fun original_llm =>
         bind (Agents.agent_method env op kw)
           (fun result =>
              bind (Orchestrator.restore_llm a original_llm)
                (fun _ => ret result))) w in
  let w_mid :=
    if truthy m
    then with_agent_llm a (Some (Orchestrator.get_llm m w)) w
    else w in
  exists w_op,
    ((w_op = w_mid /\ exists e, fst run = inl e) \/
     exists llm args,
       agent_llm a w_mid = Some llm /\
       w_op = with_call (Generate, llm, args) w_mid) /\
    snd run =
      if truthy m then
        match fst run with
        | inr _ =>
            match agent_llm a w with
            | Some original_llm => with_agent_llm a (Some original_llm) w_op
            | None => w_op
            end
        | inl _ => w_op
        end
      else w_op.
Proof.
  intros Hown. unfold Orchestrator.swap_llm.
  destruct (truthy m); unfold bind, read_llm, write_llm, ret; simpl.
  - set (w_mid := with_agent_llm a (Some (Orchestrator.get_llm m w)) w).
    pose proof (agent_method_effect op kw w_mid) as Heff. simpl in Heff.
    rewrite Hown in Heff.
    destruct (Agents.agent_method env op kw w_mid) as [[e | r] w1];
      simpl in *.
    + exists w1. split; [|reflexivity].
      destruct Heff as [[-> _] | Heff]; [left; eauto | right; exact Heff].
    + exists w1. split.
      * destruct Heff as [[_ [e He]] | Heff];
          [discriminate | right; exact Heff].
      * destruct (agent_llm a w); reflexivity.
  - pose proof (agent_method_effect op kw w) as Heff. simpl in Heff.
    rewrite Hown in Heff.
    destruct (Agents.agent_method env op kw w) as [[e | r] w1]; simpl in *.
    + exists w1. split; [|reflexivity].
      destruct Heff as [[-> _] | Heff]; [left; eauto | right; exact Heff].
    + exists w1. split; [|reflexivity].
      destruct Heff as [[_ [e He]] | Heff];
        [discriminate | right; exact Heff].
Qed.

(** A branch that calls the method directly. *)
Ltac plain_branch a Heff :=
  let w1 := fresh "w1" in
  match goal with
  | |- context [fst ?run] =>
      destruct run as [[?e | ?r] w1] eqn:?; simpl in Heff |- *;
      exists w1;
      (split; [|destruct (truthy _); reflexivity]);
      destruct (truthy _);
      (destruct Heff as [[-> [? ?]] | (?llm & ?args & ? & ->)];
       [left; split; [reflexivity | eauto]
       | right; exists a; do 2 eexists;
         split; [reflexivity | split; [eassumption | left; reflexivity]]])
  end.

(** Every branch of the [try] block has this shape: the optional swap, the
    agent's method, the restore on return. *)
Lemma route_dispatch_world t m kw w :
  let run := Orchestrator.route_dispatch env t m kw w in
  exists w_op,
    method_effect t (fst run) (after_swap env t m w) w_op /\
    snd run = after_restore t m w (fst run) w_op.
Proof.
  unfold Orchestrator.route_dispatch, method_effect, after_swap,
    after_restore, swapped, rebound_agent, task_agent, str_in,
    swapping_task_types.
  simpl existsb.
  destruct (String.eqb_spec t "generate") as [-> | _].
  { destruct (@swapped_block_world code_generator generate_code_op m kw w eq_refl)
      as (w_op & Heff & Hend).
    exists w_op. simpl. destruct (truthy m); (split; [|exact Hend]);
      (destruct Heff as [Hl | (llm & args & Hb & Hw)]; [left; exact Hl|]);
      right; exists code_generator, llm, args;
      (split; [reflexivity|]); (split; [exact Hb|]); left; exact Hw. }
  destruct (String.eqb_spec t "review") as [-> | _].
  { destruct (@swapped_block_world code_reviewer review_code_op m kw w eq_refl)
      as (w_op & Heff & Hend).
    exists w_op. simpl. destruct (truthy m); (split; [|exact Hend]);
      (destruct Heff as [Hl | (llm & args & Hb & Hw)]; [left; exact Hl|]);
      right; exists code_reviewer, llm, args;
      (split; [reflexivity|]); (split; [exact Hb|]); left; exact Hw. }
  destruct (String.eqb_spec t "quick-check") as [-> | _].
  { pose proof (agent_method_effect quick_check_op kw w) as Heff.
    unfold Agents.quick_check. simpl. plain_branch code_reviewer Heff. }
  destruct (String.eqb_spec t "architecture") as [-> | _].
  { destruct (@swapped_block_world system_architect design_architecture_op m kw w eq_refl)
      as (w_op & Heff & Hend).
    exists w_op. simpl. destruct (truthy m); (split; [|exact Hend]);
      (destruct Heff as [Hl | (llm & args & Hb & Hw)]; [left; exact Hl|]);
      right; exists system_architect, llm, args;
      (split; [reflexivity|]); (split; [exact Hb|]); left; exact Hw. }
  destruct (String.eqb_spec t "suggest-patterns") as [-> | _].
  { pose proof (agent_method_effect suggest_patterns_op kw w) as Heff.
    unfold Agents.suggest_patterns. simpl. plain_branch system_architect Heff. }
  destruct (String.eqb_spec t "optimize-architecture") as [-> | _].
  { pose proof (agent_method_effect optimize_architecture_op kw w) as Heff.
    unfold Agents.optimize_architecture. simpl.
    plain_branch system_architect Heff. }
  destruct (String.eqb_spec t "analyze-repo") as [-> | _].
  { pose proof (agent_method_effect analyze_repository_op kw w) as Heff.
    unfold Agents.analyze_repository. simpl. plain_branch github_mcp Heff. }
  destruct (String.eqb_spec t "pr-description") as [-> | _].
  { pose proof (agent_method_effect suggest_pr_description_op kw w) as Heff.
    unfold Agents.suggest_pr_description. simpl. plain_branch github_mcp Heff. }
  destruct (String.eqb_spec t "code-search") as [-> | _].
  { pose proof (agent_method_effect code_search_assistant_op kw w) as Heff.
    unfold Agents.code_search_assistant. simpl. plain_branch github_mcp Heff. }
  destruct (String.eqb_spec t "learn") as [-> | _].
  { pose proof (learn_from_feedback_kw_effect kw w) as Heff. simpl.
    destruct (Agents.learn_from_feedback_kw env kw w) as [[e | r] w1];
      simpl in Heff |- *;
      exists w1; (split; [|destruct (truthy m); reflexivity]);
      destruct (truthy m);
      (destruct Heff
        as [[-> [e0 He0]]
           | (llm & args & Hb & [[-> [e0 He0]] | (l & Hl & ->)])];
       try discriminate;
       [left; split; [reflexivity | eauto] ..
       | right; exists self_evolving, llm, args;
         split; [reflexivity|]; split; [exact Hb|];
         first [left; reflexivity
               | right; exists l; repeat split; congruence]]). }
  destruct (String.eqb_spec t "adapt") as [-> | _].
  { pose proof (adapt_strategy_kw_effect kw w) as Heff. simpl.
    plain_branch self_evolving Heff. }
  simpl. exists w. unfold raise.
  destruct (truthy m); (split; [left; split; [reflexivity | eauto]|]);
    reflexivity.
Qed.

End WithEnv.
End Dispatch.

(** ** What a request leaves behind *)

Module Effects.

Lemma agent_llm_with_same a l w : agent_llm a (with_agent_llm a l w) = l.
Proof. destruct a; reflexivity. Qed.

Lemma agent_llm_with_other a b l w :
  a <> b -> agent_llm b (with_agent_llm a l w) = agent_llm b w.
Proof. intro Hne. destruct a, b; try reflexivity; contradiction. Qed.

Lemma agent_llm_with_call a c w : agent_llm a (with_call c w) = agent_llm a w.
Proof. destruct a; reflexivity. Qed.

Lemma agent_llm_with_history a h w :
  agent_llm a (with_history h w) = agent_llm a w.
Proof. destruct a; reflexivity. Qed.

Lemma history_with_agent_llm a l w :
  interaction_history (with_agent_llm a l w) = interaction_history w.
Proof. destruct a; reflexivity. Qed.

Lemma called_with_agent_llm a l w : called (with_agent_llm a l w) = called w.
Proof. destruct a; reflexivity. Qed.

Lemma llms_with_agent_llm a l w : llms (with_agent_llm a l w) = llms w.
Proof. destruct a; reflexivity. Qed.

Lemma primary_with_agent_llm a l w :
  primary_llm (with_agent_llm a l w) = primary_llm w.
Proof. destruct a; reflexivity. Qed.

Lemma called_with_call k llm args w :
  called (with_call (k, llm, args) w) = called w ++ [llm].
Proof. unfold called. simpl. rewrite map_app. reflexivity. Qed.

Lemma agent_eqb_spec a b : reflect (a = b) (agent_eqb a b).
Proof. destruct a, b; constructor; congruence. Qed.

Lemma dict_get_in_values {V} (d : list (string * V)) k v :
  Dict.get d k = Some v -> In v (Dict.values d).
Proof.
  induction d as [|[k' v'] d IH]; simpl; [discriminate|].
  destruct (String.eqb k' k).
  - intro H. inversion H. left. reflexivity.
  - intro H. right. apply IH. exact H.
Qed.

Section WithEnv.

Variable env : Env.

Lemma history_after_swap t m w :
  interaction_history (after_swap env t m w) = interaction_history w.
Proof.
  unfold after_swap. destruct (swapped t m); [|reflexivity].
  apply history_with_agent_llm.
Qed.

Lemma history_after_restore t m w r w_op :
  interaction_history (after_restore t m w r w_op) = interaction_history w_op.
Proof.
  unfold after_restore.
  destruct (swapped t m); [|reflexivity].
  destruct r; [reflexivity|].
  destruct (agent_llm a w); [apply history_with_agent_llm | reflexivity].
Qed.

Lemma called_after_swap t m w : called (after_swap env t m w) = called w.
Proof.
  unfold after_swap. destruct (swapped t m); [|reflexivity].
  apply called_with_agent_llm.
Qed.

Lemma called_after_restore t m w r w_op :
  called (after_restore t m w r w_op) = called w_op.
Proof.
  unfold after_restore.
  destruct (swapped t m); [|reflexivity].
  destruct r; [reflexivity|].
  destruct (agent_llm a w); [apply called_with_agent_llm | reflexivity].
Qed.

(** The history after one dispatch: unchanged, or, for a ["learn"] that
    returned, one record longer. *)
Lemma route_dispatch_history t m kw w :
  let run := Orchestrator.route_dispatch env t m kw w in
  interaction_history (snd run) = interaction_history w \/
  (t = "learn" /\
   exists r learning,
     fst run = inr r /\
     interaction_history (snd run) = interaction_history w ++ [learning]).
Proof.
  intro run.
  destruct (Dispatch.route_dispatch_world env t m kw w) as (w_op & Heff & Hend).
  fold run in Heff, Hend. rewrite Hend, history_after_restore.
  destruct Heff
    as [[-> _] | (a & llm & args & _ & _ & [-> | (l & Ht & Hr & ->)])].
  - left. apply history_after_swap.
  - left. simpl. apply history_after_swap.
  - right. split; [exact Ht|]. exists (Agents.learning_dict l), l.
    split; [exact Hr|]. simpl. rewrite history_after_swap. reflexivity.
Qed.

(** The binding of an agent after one dispatch. *)
Lemma route_dispatch_binding t m kw w a :
  let run := Orchestrator.route_dispatch env t m kw w in
  agent_llm a (snd run) =
    match swapped t m with
    | Some b =>
        if agent_eqb b a then
          match fst run, agent_llm a w with
          | inr _, Some original_llm => Some original_llm
          | _, _ => Some (Orchestrator.get_llm m w)
          end
        else agent_llm a w
    | None => agent_llm a w
    end.
Proof.
  intro run.
  destruct (Dispatch.route_dispatch_world env t m kw w) as (w_op & Heff & Hend).
  fold run in Heff, Hend. rewrite Hend.
  assert (Hop : agent_llm a w_op = agent_llm a (after_swap env t m w)).
  { destruct Heff
      as [[-> _] | (b & llm & args & _ & _ & [-> | (l & _ & _ & ->)])];
      [reflexivity | apply agent_llm_with_call |].
    rewrite agent_llm_with_history. apply agent_llm_with_call. }
  unfold after_restore, after_swap in *.
  destruct (swapped t m) as [b|]; [|exact Hop].
  destruct (agent_eqb_spec b a) as [-> | Hne].
  - rewrite agent_llm_with_same in Hop.
    destruct (fst run); [exact Hop|].
    destruct (agent_llm a w); [apply agent_llm_with_same | exact Hop].
  - rewrite (agent_llm_with_other _ _ Hne) in Hop.
    destruct (fst run); [exact Hop|].
    destruct (agent_llm b w); [|exact Hop].
    rewrite (agent_llm_with_other _ _ Hne). exact Hop.
Qed.

(** The clients called by one dispatch: none, or the one the task's agent is
    bound to when its method starts. *)
Lemma route_dispatch_called t m kw w :
  let run := Orchestrator.route_dispatch env t m kw w in
  called (snd run) = called w \/
  exists a llm,
    task_agent t = Some a /\
    agent_llm a (after_swap env t m w) = Some llm /\
    called (snd run) = called w ++ [llm].
Proof.
  intro run.
  destruct (Dispatch.route_dispatch_world env t m kw w) as (w_op & Heff & Hend).
  fold run in Heff, Hend. rewrite Hend, called_after_restore.
  destruct Heff
    as [[-> _] | (a & llm & args & Ha & Hb & [-> | (l & _ & _ & ->)])].
  - left. apply called_after_swap.
  - right. exists a, llm. repeat split; try assumption.
    rewrite called_with_call, called_after_swap. reflexivity.
  - right. exists a, llm. repeat split; try assumption.
    unfold called at 1. simpl. rewrite map_app. simpl.
    fold (called (after_swap env t m w)). rewrite called_after_swap.
    reflexivity.
Qed.

End WithEnv.
End Effects.

(** ** Guarantees of [stream_generate] *)

Module StreamFrame.
Section WithEnv.

Variable env : Env.

Lemma only_streams_refl w : only_streams 0 w w.
Proof.
  unfold only_streams. repeat split; auto.
  exists []. rewrite app_nil_r. repeat split; auto.
Qed.

Lemma only_streams_trans n k w1 w2 w3 :
  only_streams n w1 w2 -> only_streams k w2 w3 ->
  only_streams (n + k) w1 w3.
Proof.
  intros (L1 & P1 & H1 & A1 & cs1 & C1 & N1 & F1)
         (L2 & P2 & H2 & A2 & cs2 & C2 & N2 & F2).
  unfold only_streams. repeat split; try congruence.
  - intros a Ha. rewrite A2, A1; auto.
  - exists (cs1 ++ cs2). rewrite C2, C1, app_assoc, length_app.
    repeat split; [lia|]. apply Forall_app. auto.
Qed.

Lemma only_streams_weaken n k w w' :
  n <= k -> only_streams n w w' -> only_streams k w w'.
Proof.
  intros Hle (L & P & H & A & cs & C & N & F).
  unfold only_streams. repeat split; auto.
  exists cs. repeat split; auto. lia.
Qed.

Lemma only_streams_rebind l w :
  only_streams 0 w (with_agent_llm code_generator l w).
Proof.
  unfold only_streams. simpl.
  split; [reflexivity|]. split; [reflexivity|]. split; [reflexivity|].
  split; [intros a Ha; destruct a; try reflexivity; contradiction|].
  exists []. rewrite app_nil_r. repeat split; auto.
Qed.

Lemma only_streams_call llm args w :
  only_streams 1 w (with_call (Stream, llm, args) w).
Proof.
  unfold only_streams. simpl.
  split; [reflexivity|]. split; [reflexivity|]. split; [reflexivity|].
  split; [intros a _; destruct a; reflexivity|].
  eexists. split; [reflexivity|]. split; [simpl; lia|].
  constructor; [reflexivity | constructor].
Qed.

(** The generator of the code generator raises at once, or iterates one
    stream of the client the agent is bound to. *)
Lemma stream_generate_code_effect kw w :
  let run := Agents.stream_generate_code env kw w in
  (exists e, run = ([], Some e, w)) \/
  exists llm args,
    code_generator_llm w = Some llm /\
    run = (fst (client_stream_generate env llm args (Agents.tick w)),
           snd (client_stream_generate env llm args (Agents.tick w)),
           with_call (Stream, llm, args) w).
Proof.
  unfold Agents.stream_generate_code.
  destruct (bind_error _ kw); [left; eauto|].
  unfold GenM.seq, GenM.exec.
  destruct (Dispatch.format_for_cases env stream_generate_code_op w)
    as [-> | [e ->]]; [|left; eauto].
  unfold GenM.try_except, Agents.llm_stream_generate, GenM.raise. simpl.
  destruct (code_generator_llm w) as [llm|]; [|left; eauto].
  right. exists llm, (prompt_of env stream_generate_code_op kw (Agents.tick w)).
  split; [reflexivity|].
  destruct (client_stream_generate env llm _ _) as [chunks [e|]];
    simpl; rewrite ?app_nil_r; reflexivity.
Qed.

Lemma stream_generate_code_only_streams kw w :
  only_streams 1 w (snd (Agents.stream_generate_code env kw w)).
Proof.
  destruct (stream_generate_code_effect kw w)
    as [[e ->] | (llm & args & _ & ->)]; simpl.
  - eapply only_streams_weaken; [|apply only_streams_refl]. lia.
  - apply only_streams_call.
Qed.

(** [stream_generate] written out: the first stream on the target, and after
    a break either the stream of OpenAI or the error fragment. *)
Lemma stream_generate_unfold m kw w :
  Orchestrator.stream_generate env m kw w =
  let restore := with_agent_llm code_generator (code_generator_llm w) in
  match
    Agents.stream_generate_code env kw
      (with_agent_llm code_generator (stream_target m w) w)
  with
  | (out1, None, w1) => (out1, None, restore w1)
  | (out1, Some e, w1) =>
      if Orchestrator.fallback_eligible env m w1 then
        match
          Agents.stream_generate_code env kw
            (with_agent_llm code_generator (Dict.get (llms w1) "openai") w1)
        with
        | (out2, None, w2) => (out1 ++ out2, None, restore w2)
        | (out2, Some fallback_error, w2) =>
            (out1 ++ out2 ++ [Orchestrator.error_fragment fallback_error],
             None, restore w2)
        end
      else (out1 ++ [Orchestrator.error_fragment e], None, restore w1)
  end.
Proof.
  unfold Orchestrator.stream_generate, stream_target, GenM.seq, GenM.exec,
    GenM.try_finally, GenM.try_except, GenM.yield, PyM.write_llm.
  simpl.
  destruct (Agents.stream_generate_code env kw _) as [[out1 [e|]] w1];
    [|reflexivity].
  destruct (Orchestrator.fallback_eligible env m w1); [|reflexivity].
  destruct (Agents.stream_generate_code env kw _) as [[out2 [e2|]] w2];
    simpl; rewrite ?app_nil_r; reflexivity.
Qed.

Lemma stream_generate_frame m kw w :
  let w' := snd (Orchestrator.stream_generate env m kw w) in
  llms w' = llms w /\ primary_llm w' = primary_llm w /\
  interaction_history w' = interaction_history w /\
  (forall a, agent_llm a w' = agent_llm a w) /\
  exists calls,
    llm_calls w' = llm_calls w ++ calls /\ length calls <= 2 /\
    Forall (fun c => fst (fst c) = Stream) calls.
Proof.
  intro w'.
  assert (Hinner : exists w_in,
             only_streams 2 w w_in /\
             w' = with_agent_llm code_generator (code_generator_llm w) w_in).
  { unfold w'. rewrite stream_generate_unfold. simpl.
    pose proof (only_streams_rebind (stream_target m w) w) as H0.
    pose proof (stream_generate_code_only_streams kw
                  (with_agent_llm code_generator (stream_target m w) w))
      as H1.
    destruct (Agents.stream_generate_code env kw _) as [[out1 [e|]] w1];
      simpl in H1.
    - destruct (Orchestrator.fallback_eligible env m w1).
      + pose proof (only_streams_rebind (Dict.get (llms w1) "openai") w1)
          as H2.
        pose proof (stream_generate_code_only_streams kw
                      (with_agent_llm code_generator
                         (Dict.get (llms w1) "openai") w1)) as H3.
        destruct (Agents.stream_generate_code env kw _)
          as [[out2 [e2|]] w2]; simpl in H3;
          (exists w2; split; [|reflexivity]);
          apply (only_streams_trans (only_streams_trans H0 H1)
                   (only_streams_trans H2 H3)).
      + exists w1. split; [|reflexivity].
        eapply only_streams_weaken;
          [|apply (only_streams_trans H0 H1)]. lia.
    - exists w1. split; [|reflexivity].
      eapply only_streams_weaken; [|apply (only_streams_trans H0 H1)]. lia. }
  destruct Hinner as (w_in & (L & P & H & A & cs & C & N & F) & ->).
  rewrite Effects.llms_with_agent_llm, Effects.primary_with_agent_llm,
    Effects.history_with_agent_llm.
  repeat split; try assumption.
  - intro a. destruct (Effects.agent_eqb_spec code_generator a) as [<- | Hne].
    + apply Effects.agent_llm_with_same.
    + rewrite (Effects.agent_llm_with_other _ _ Hne). apply A. congruence.
  - exists cs. simpl. auto.
Qed.

(** X10. [stream_generate] leaves the orchestrator as it found it, call log
    apart: the registry, the primary, the history and the binding of every
    agent, the code generator included, are what they were, on every path;
    it makes at most two client calls, both [stream_generate] calls. *)
Theorem stream_generate_restores_state m kw w :
  let w' := snd (Orchestrator.stream_generate env m kw w) in
  llms w' = llms w /\ primary_llm w' = primary_llm w /\
  interaction_history w' = interaction_history w /\
  (forall a, agent_llm a w' = agent_llm a w) /\
  exists calls,
    llm_calls w' = llm_calls w ++ calls /\ length calls <= 2 /\
    Forall (fun c => fst (fst c) = Stream) calls.
Proof.
  exact (stream_generate_frame m kw w).
Qed.

(** X11. [stream_generate] never raises to its consumer, and what the first
    stream delivered always comes first in the output: it is the whole
    output when that stream completed, and a prefix of it otherwise. *)
Theorem stream_generate_never_raises m kw w :
  let run := Orchestrator.stream_generate env m kw w in
  let first :=
    Agents.stream_generate_code env kw
      (with_agent_llm code_generator (stream_target m w) w) in
  snd (fst run) = None /\
  match snd (fst first) with
  | None => fst (fst run) = fst (fst first)
  | Some _ => exists rest, fst (fst run) = fst (fst first) ++ rest
  end.
Proof.
  simpl. rewrite stream_generate_unfold. simpl.
  destruct (Agents.stream_generate_code env kw _) as [[out1 [e|]] w1]; simpl;
    [|split; reflexivity].
  destruct (Orchestrator.fallback_eligible env m w1); simpl;
    [|split; eauto].
  destruct (Agents.stream_generate_code env kw _) as [[out2 [e2|]] w2];
    simpl; split; eauto.
Qed.

(** X12. When the first stream breaks and the fallback test passes,
    [stream_generate] appends the whole stream of the OpenAI client to the
    chunks already delivered, with no mark at the seam; the first exception
    is not reported, and an error fragment appears only if the OpenAI stream
    breaks too, carrying that second exception. *)
Theorem stream_generate_fallback_appends m kw w out1 e1 w1 openai :
  Agents.stream_generate_code env kw
    (with_agent_llm code_generator (stream_target m w) w)
  = (out1, Some e1, w1) ->
  Orchestrator.fallback_eligible env m w = true ->
  Dict.get (llms w) "openai" = Some openai ->
  let second :=
    Agents.stream_generate_code env kw
      (with_agent_llm code_generator (Some openai) w1) in
  fst (fst (Orchestrator.stream_generate env m kw w)) =
    out1 ++ fst (fst second) ++
    match snd (fst second) with
    | Some e2 => [Orchestrator.error_fragment e2]
    | None => []
    end.
Proof.
  intros Hfirst Hel Hopenai second.
  assert (Hllms : llms w1 = llms w).
  { pose proof (Streaming.stream_generate_code_llms env kw
        (with_agent_llm code_generator (stream_target m w) w)) as H.
    rewrite Hfirst in H. simpl in H. exact H. }
  rewrite stream_generate_unfold. cbv zeta. rewrite Hfirst.
  unfold Orchestrator.fallback_eligible in *. rewrite Hllms, Hel, Hopenai.
  fold second.
  destruct second as [[out2 [e2|]] w2]; simpl;
    rewrite ?app_nil_r; reflexivity.
Qed.

End WithEnv.
End StreamFrame.

(** ** Guarantees of [route_request] *)

Module Guarantees.
Section WithEnv.

Variable env : Env.

(** [route_request] is its first attempt, or that attempt failed and it is
    one more attempt that asks for ["openai"]. *)
Lemma route_request_cases t m kw w :
  Orchestrator.route_request env t m kw w =
    Orchestrator.route_dispatch env t m kw w \/
  exists e1 w1,
    Orchestrator.route_dispatch env t m kw w = (inl e1, w1) /\
    Orchestrator.fallback_eligible env m w1 = true /\
    Orchestrator.route_request env t m kw w =
      Orchestrator.route_dispatch env t (Some "openai") kw w1.
Proof.
  rewrite Routing.route_request_unfold.
  destruct (Orchestrator.route_dispatch env t m kw w) as [[e1 | r] w1];
    [|left; reflexivity].
  destruct (Orchestrator.fallback_eligible env m w1) eqn:El;
    [|left; reflexivity].
  right. exists e1, w1. rewrite Routing.route_request_openai. auto.
Qed.

Lemma route_dispatch_llms t m kw w :
  llms (snd (Orchestrator.route_dispatch env t m kw w)) = llms w /\
  primary_llm (snd (Orchestrator.route_dispatch env t m kw w)) = primary_llm w.
Proof.
  pose proof (Frame.py_steps_route_dispatch env t m kw w) as H.
  unfold steps in H. tauto.
Qed.

Lemma route_request_llms t m kw w :
  llms (snd (Orchestrator.route_request env t m kw w)) = llms w /\
  primary_llm (snd (Orchestrator.route_request env t m kw w)) = primary_llm w.
Proof.
  destruct (route_request_cases t m kw w) as [-> | (e1 & w1 & H1 & _ & ->)].
  - apply route_dispatch_llms.
  - pose proof (route_dispatch_llms t m kw w) as Ha. rewrite H1 in Ha.
    pose proof (route_dispatch_llms t (Some "openai") kw w1) as Hb.
    simpl in Ha. destruct Ha, Hb. split; congruence.
Qed.

Lemma swapped_openai t : swapped t (Some "openai") = rebound_agent t.
Proof. reflexivity. Qed.

Lemma swapped_is_rebound t m a : swapped t m = Some a -> rebound_agent t = Some a.
Proof. unfold swapped. destruct (truthy m); [auto | discriminate]. Qed.

(** X5. When the first attempt returns, [route_request] returns its result and
    every agent is bound as before the call, provided every agent was bound
    to a client. *)
Theorem route_request_success_restores t m kw w result w' :
  (forall a, agent_llm a w <> None) ->
  Orchestrator.route_dispatch env t m kw w = (inr result, w') ->
  Orchestrator.route_request env t m kw w = (inr result, w') /\
  forall a, agent_llm a w' = agent_llm a w.
Proof.
  intros Hbound Hfirst. split.
  - rewrite Routing.route_request_unfold, Hfirst. reflexivity.
  - intro a.
    pose proof (Effects.route_dispatch_binding env t m kw w a) as Hb.
    simpl in Hb. rewrite Hfirst in Hb. simpl in Hb. rewrite Hb.
    destruct (swapped t m) as [b|]; [|reflexivity].
    destruct (agent_eqb b a); [|reflexivity].
    specialize (Hbound a). destruct (agent_llm a w); [reflexivity|].
    contradiction.
Qed.

(** X6. [route_request] can change the binding of one agent only, the one
    whose branch swaps; the GitHub agent and the self-evolving agent, and any
    agent under another task type, keep theirs through every outcome. *)
Theorem route_request_rebinds_only_task_agent t m kw w a :
  rebound_agent t <> Some a ->
  agent_llm a (snd (Orchestrator.route_request env t m kw w)) = agent_llm a w.
Proof.
  intro Hother.
  assert (Hone : forall m0 w0,
             agent_llm a (snd (Orchestrator.route_dispatch env t m0 kw w0))
             = agent_llm a w0).
  { intros m0 w0. rewrite Effects.route_dispatch_binding.
    destruct (swapped t m0) as [b|] eqn:Hs; [|reflexivity].
    apply swapped_is_rebound in Hs.
    destruct (Effects.agent_eqb_spec b a) as [-> | _]; [|reflexivity].
    contradiction. }
  destruct (route_request_cases t m kw w) as [-> | (e1 & w1 & H1 & _ & ->)].
  - apply Hone.
  - rewrite Hone. specialize (Hone m w). rewrite H1 in Hone. exact Hone.
Qed.

Lemma get_llm_registered_or_primary m w :
  Orchestrator.get_llm m w = primary_llm w \/
  registered w (Orchestrator.get_llm m w).
Proof.
  unfold Orchestrator.get_llm, registered.
  destruct m as [name|]; [|left; reflexivity].
  destruct (truthy (Some name) && Dict.mem name (llms w));
    [|left; reflexivity].
  destruct (Dict.get (llms w) name) as [llm|] eqn:Hget; [|left; reflexivity].
  right. eapply Effects.dict_get_in_values. exact Hget.
Qed.

Lemma route_dispatch_consistent t m kw w :
  consistent w ->
  consistent (snd (Orchestrator.route_dispatch env t m kw w)).
Proof.
  intros [Hprimary Hagents].
  destruct (route_dispatch_llms t m kw w) as [Hl Hp].
  unfold consistent, registered in *. rewrite Hl, Hp.
  split; [exact Hprimary|].
  intro a. rewrite Effects.route_dispatch_binding.
  destruct (Hagents a) as (llm & Ha & Hreg).
  destruct (swapped t m) as [b|]; [|eauto].
  destruct (agent_eqb b a); [|eauto].
  rewrite Ha.
  destruct (fst (Orchestrator.route_dispatch env t m kw w)); [|eauto].
  eexists. split; [reflexivity|].
  destruct (get_llm_registered_or_primary m w) as [-> | H]; assumption.
Qed.

Lemma init_world w0 :
  Orchestrator.init env = inr w0 ->
  exists first rest,
    Dict.values (Orchestrator.configured_llms env) = first :: rest /\
    w0 =
      let primary :=
        match
          Dict.get (Orchestrator.configured_llms env)
            (default_model (settings env))
        with
        | Some llm => llm
        | None => first
        end in
      mkWorld (Orchestrator.configured_llms env) primary (Some primary)
        (Some primary) (Some primary) (Some primary) (Some primary) [] [].
Proof.
  unfold Orchestrator.init.
  destruct (Dict.values (Orchestrator.configured_llms env))
    as [|first rest]; [discriminate|].
  intro H. inversion H. eauto.
Qed.

(** X1. In the state [__init__] builds every agent is bound to the primary,
    the primary is a client of the registry, the feedback history is empty
    and no client has been called. *)
Theorem init_binds_agents_to_primary w0 :
  Orchestrator.init env = inr w0 ->
  consistent w0 /\
  (forall a, agent_llm a w0 = Some (primary_llm w0)) /\
  interaction_history w0 = [] /\ llm_calls w0 = [].
Proof.
  intro Hinit.
  destruct (@init_world w0 Hinit) as (first & rest & Hvalues & ->). simpl.
  assert (Hprimary :
            In match
                 Dict.get (Orchestrator.configured_llms env)
                   (default_model (settings env))
               with
               | Some llm => llm
               | None => first
               end (Dict.values (Orchestrator.configured_llms env))).
  { destruct (Dict.get _ (default_model (settings env))) eqn:Hget.
    - eapply Effects.dict_get_in_values. exact Hget.
    - rewrite Hvalues. left. reflexivity. }
  split; [|split; [intros []; reflexivity | split; reflexivity]].
  split; [exact Hprimary|].
  intros []; (eexists; split; [reflexivity | exact Hprimary]).
Qed.

Lemma route_request_consistent t m kw w :
  consistent w ->
  consistent (snd (Orchestrator.route_request env t m kw w)).
Proof.
  intros Hc.
  destruct (route_request_cases t m kw w) as [-> | (e1 & w1 & H1 & _ & ->)].
  - apply route_dispatch_consistent. exact Hc.
  - apply route_dispatch_consistent.
    pose proof (@route_dispatch_consistent t m kw w Hc) as H.
    rewrite H1 in H. exact H.
Qed.

(** X4. [route_request] and [stream_generate] keep every agent bound to a
    client of the registry, through every outcome: a swap that is not undone
    leaves the agent on the resolved target, which is the primary or a
    registered client, never on [None]. *)
Theorem agents_stay_on_registered_clients t m kw w :
  consistent w ->
  consistent (snd (Orchestrator.route_request env t m kw w)) /\
  consistent (snd (Orchestrator.stream_generate env m kw w)).
Proof.
  intros Hc. split; [apply route_request_consistent; exact Hc|].
  destruct Hc as [Hp Ha].
  destruct (StreamFrame.stream_generate_frame env m kw w)
    as (L & P & _ & A & _).
  unfold consistent, registered in *. rewrite L, P.
  split; [exact Hp|]. intro a. rewrite A. apply Ha.
Qed.

(** The clients one dispatch of a swapping task type calls when a registered
    name is requested. *)
Lemma swapping_dispatch_called t name kw w llm :
  In t swapping_task_types ->
  truthy (Some name) = true ->
  Dict.get (llms w) name = Some llm ->
  let w1 := snd (Orchestrator.route_dispatch env t (Some name) kw w) in
  called w1 = called w \/ called w1 = called w ++ [llm].
Proof.
  intros Ht Htruthy Hget w1.
  destruct (Effects.route_dispatch_called env t (Some name) kw w)
    as [H | (a & l & Ha & Hb & H)]; [left; exact H|].
  right. fold w1 in H. rewrite H. f_equal. f_equal.
  assert (Hs : swapped t (Some name) = Some a).
  { unfold swapped, rebound_agent. rewrite Htruthy.
    unfold swapping_task_types in Ht. simpl in Ht.
    destruct Ht as [<- | [<- | [<- | []]]]; exact Ha. }
  unfold after_swap in Hb. rewrite Hs, Effects.agent_llm_with_same in Hb.
  rewrite (@Rebinding.get_llm_registered name w llm Htruthy Hget) in Hb.
  congruence.
Qed.

(** X7. For ["generate"], ["review"] and ["architecture"] a registered name is
    honoured: the first attempt calls the named client and nothing else, and
    the only other client [route_request] can call is the one registered as
    ["openai"], once, in the retry. *)
Theorem route_request_calls_named_client t name kw w llm :
  In t swapping_task_types ->
  truthy (Some name) = true ->
  Dict.get (llms w) name = Some llm ->
  let w' := snd (Orchestrator.route_request env t (Some name) kw w) in
  exists calls,
    called w' = called w ++ calls /\
    (calls = [] \/ calls = [llm] \/
     exists openai,
       Dict.get (llms w) "openai" = Some openai /\
       (calls = [openai] \/ calls = [llm; openai])).
Proof.
  intros Ht Htruthy Hget w'.
  pose proof (@swapping_dispatch_called t name kw w llm Ht Htruthy Hget)
    as Hfirst.
  unfold w'.
  destruct (route_request_cases t (Some name) kw w)
    as [-> | (e1 & w1 & H1 & Hel & ->)].
  - destruct Hfirst as [-> | ->].
    + exists []. rewrite app_nil_r. auto.
    + exists [llm]. auto.
  - rewrite H1 in Hfirst. simpl in Hfirst.
    destruct (route_dispatch_llms t (Some name) kw w) as [Hl _].
    rewrite H1 in Hl. simpl in Hl.
    unfold Orchestrator.fallback_eligible in Hel.
    apply andb_prop in Hel. destruct Hel as [_ Hmem].
    unfold Dict.mem in Hmem. rewrite Hl in Hmem.
    destruct (Dict.get (llms w) "openai") as [openai|] eqn:Hopenai;
      [|discriminate].
    assert (Hget1 : Dict.get (llms w1) "openai" = Some openai)
      by (rewrite Hl; exact Hopenai).
    pose proof (@swapping_dispatch_called t "openai" kw w1 openai Ht eq_refl
                  Hget1) as Hsecond.
    simpl in Hsecond.
    destruct Hsecond as [-> | ->]; destruct Hfirst as [-> | ->].
    + exists []. rewrite app_nil_r. auto.
    + exists [llm]. auto.
    + exists [openai]. split; [reflexivity|]. right. right. eauto.
    + exists [llm; openai]. rewrite <- app_assoc.
      split; [reflexivity|]. right. right. eauto.
Qed.

Lemma route_dispatch_ignores_model t m m' kw w :
  ~ In t swapping_task_types ->
  Orchestrator.route_dispatch env t m kw w =
  Orchestrator.route_dispatch env t m' kw w.
Proof.
  intro Hnot. unfold Orchestrator.route_dispatch.
  destruct (String.eqb_spec t "generate") as [-> | _];
    [exfalso; apply Hnot; simpl; tauto|].
  destruct (String.eqb_spec t "review") as [-> | _];
    [exfalso; apply Hnot; simpl; tauto|].
  destruct (String.eqb t "quick-check"); [reflexivity|].
  destruct (String.eqb_spec t "architecture") as [-> | _];
    [exfalso; apply Hnot; simpl; tauto|].
  reflexivity.
Qed.

Lemma not_swapping_not_swapped t m :
  ~ In t swapping_task_types -> swapped t m = None.
Proof.
  intro Hnot. unfold swapped, rebound_agent, str_in, swapping_task_types.
  simpl existsb.
  destruct (String.eqb_spec t "generate") as [-> | _];
    [exfalso; apply Hnot; simpl; tauto|].
  destruct (String.eqb_spec t "review") as [-> | _];
    [exfalso; apply Hnot; simpl; tauto|].
  destruct (String.eqb_spec t "architecture") as [-> | _];
    [exfalso; apply Hnot; simpl; tauto|].
  destruct (truthy m); reflexivity.
Qed.

Lemma plain_dispatch_called t m kw w a llm :
  ~ In t swapping_task_types ->
  task_agent t = Some a ->
  agent_llm a w = Some llm ->
  let w1 := snd (Orchestrator.route_dispatch env t m kw w) in
  agent_llm a w1 = Some llm /\
  (called w1 = called w \/ called w1 = called w ++ [llm]).
Proof.
  intros Hnot Ha Hb w1. unfold w1. split.
  - rewrite Effects.route_dispatch_binding.
    rewrite (not_swapping_not_swapped m Hnot). exact Hb.
  - destruct (Effects.route_dispatch_called env t m kw w)
      as [H | (a' & l & Ha' & Hb' & H)]; [left; exact H|].
    right. rewrite H. unfold after_swap in Hb'.
    rewrite (not_swapping_not_swapped m Hnot) in Hb'. congruence.
Qed.

(** X22. For a task type whose branch does not swap, the fallback retry runs
    on the very client the first attempt ran on: whatever [route_request]
    calls, once or twice, is the client the task's agent was bound to before
    the request, and the client registered as ["openai"] is called only if
    it is that client. *)
Theorem route_request_retry_same_client t m kw w a llm :
  ~ In t swapping_task_types ->
  task_agent t = Some a ->
  agent_llm a w = Some llm ->
  let w' := snd (Orchestrator.route_request env t m kw w) in
  exists calls,
    called w' = called w ++ calls /\
    (calls = [] \/ calls = [llm] \/ calls = [llm; llm]).
Proof.
  intros Hnot Ha Hb w'. unfold w'.
  destruct (@plain_dispatch_called t m kw w a llm Hnot Ha Hb) as [Hb1 Hc1].
  destruct (route_request_cases t m kw w)
    as [-> | (e1 & w1 & H1 & _ & ->)].
  - destruct Hc1 as [-> | ->].
    + exists []. rewrite app_nil_r. auto.
    + exists [llm]. auto.
  - rewrite H1 in Hb1, Hc1. simpl in Hb1, Hc1.
    destruct (@plain_dispatch_called t (Some "openai") kw w1 a llm Hnot Ha
                Hb1) as [_ Hc2].
    destruct Hc2 as [-> | ->]; destruct Hc1 as [-> | ->].
    + exists []. rewrite app_nil_r. auto.
    + exists [llm]. auto.
    + exists [llm]. auto.
    + exists [llm; llm]. rewrite <- app_assoc. auto.
Qed.

(** X8. Outside ["generate"], ["review"] and ["architecture"] the requested
    model is never looked up: two requests that differ only in [model] run
    the same call on the same client and end alike, as long as they agree on
    whether the name is literally ["openai"], which is all the handler
    tests. *)
Theorem route_request_ignores_model t m m' kw w :
  ~ In t swapping_task_types ->
  str_ne m "openai" = str_ne m' "openai" ->
  Orchestrator.route_request env t m kw w =
  Orchestrator.route_request env t m' kw w.
Proof.
  intros Hnot Hne.
  rewrite (Routing.route_request_unfold env t m),
    (Routing.route_request_unfold env t m').
  rewrite (@route_dispatch_ignores_model t m m' kw w Hnot).
  unfold Orchestrator.fallback_eligible. rewrite Hne. reflexivity.
Qed.

Lemma route_request_history_cases t m kw w :
  let run := Orchestrator.route_request env t m kw w in
  interaction_history (snd run) = interaction_history w \/
  (t = "learn" /\
   exists r learning,
     fst run = inr r /\
     interaction_history (snd run) = interaction_history w ++ [learning]).
Proof.
  intro run. unfold run.
  destruct (route_request_cases t m kw w) as [-> | (e1 & w1 & H1 & _ & ->)].
  - apply Effects.route_dispatch_history.
  - assert (Hsame : interaction_history w1 = interaction_history w).
    { destruct (Effects.route_dispatch_history env t m kw w)
        as [H | (_ & r & l & Hr & _)];
        rewrite H1 in *; simpl in *; [exact H | discriminate]. }
    rewrite <- Hsame. apply Effects.route_dispatch_history.
Qed.

(** X9. [route_request] writes the feedback history only through a ["learn"]
    that returns: for every other task type, and whenever it raises, the
    history is exactly what it was, and otherwise it is the old history
    followed by one record. *)
Theorem route_request_history t m kw w :
  let run := Orchestrator.route_request env t m kw w in
  interaction_history (snd run) = interaction_history w \/
  (t = "learn" /\
   exists r learning,
     fst run = inr r /\
     interaction_history (snd run) = interaction_history w ++ [learning]).
Proof. exact (route_request_history_cases t m kw w). Qed.

End WithEnv.
End Guarantees.

(** ** The registry after start-up *)

Module Registry.
Section WithEnv.

Variable env : Env.

Lemma init_llms w0 :
  Orchestrator.init env = inr w0 -> llms w0 = constructed env.
Proof.
  intro Hinit.
  destruct (@Guarantees.init_world env w0 Hinit) as (first & rest & _ & ->).
  simpl. apply Startup.configured_llms_constructed.
Qed.

(** X2. After [__init__], [get_available_models] lists exactly the providers
    whose client was constructed, under their names and in configuration
    order: between one and three names, none twice; and looking one of them
    up with [get_llm] gives the client that was constructed for it. *)
Theorem init_available_models w0 :
  Orchestrator.init env = inr w0 ->
  let names := Orchestrator.get_available_models w0 in
  names =
    map provider_name
      (filter (fun p => match constructs env p with
                        | Some _ => true
                        | None => false
                        end) configuration_order) /\
  1 <= length names <= 3 /\ NoDup names /\
  forall p, In (provider_name p) names ->
            constructs env p
            = Some (Orchestrator.get_llm (Some (provider_name p)) w0).
Proof.
  intros Hinit names.
  pose proof (init_llms Hinit) as Hllms.
  assert (Hne : constructed env <> []).
  { destruct (@Guarantees.init_world env w0 Hinit) as (first & rest & Hv & _).
    rewrite Startup.configured_llms_constructed in Hv.
    intro Hnil. rewrite Hnil in Hv. discriminate. }
  unfold names, Orchestrator.get_available_models, Orchestrator.get_llm,
    Dict.mem.
  rewrite Hllms. clear Hllms names.
  unfold constructed, configuration_order in *.
  simpl flat_map in *. simpl filter.
  destruct (constructs env ClaudeSonnetClient) as [c|] eqn:Hc,
           (constructs env OpenAIClient) as [o|] eqn:Ho,
           (constructs env GeminiClient) as [g|] eqn:Hg;
    simpl in *; try contradiction;
    (split; [reflexivity|]);
    (split; [lia|]);
    (split;
     [repeat constructor; simpl; intuition discriminate
     |intros [] Hin; simpl in *;
      first [assumption | intuition discriminate]]).
Qed.

(** X3. The registry and the primary never change after start-up: the answer
    of [get_available_models] and of [GET /models], and the primary client,
    are the same after any [route_request] or [stream_generate] as before
    it. *)
Theorem registry_is_stable t m kw w :
  let after_route := snd (Orchestrator.route_request env t m kw w) in
  let after_stream := snd (Orchestrator.stream_generate env m kw w) in
  Orchestrator.get_available_models after_route
    = Orchestrator.get_available_models w /\
  Orchestrator.get_available_models after_stream
    = Orchestrator.get_available_models w /\
  primary_llm after_route = primary_llm w /\
  primary_llm after_stream = primary_llm w /\
  Routes.get_available_models after_route = Routes.get_available_models w /\
  Routes.get_available_models after_stream = Routes.get_available_models w.
Proof.
  simpl.
  destruct (Guarantees.route_request_llms env t m kw w) as [L1 P1].
  destruct (StreamFrame.stream_generate_frame env m kw w)
    as (L2 & P2 & _).
  unfold Routes.get_available_models, Orchestrator.get_available_models.
  rewrite L1, L2, P1, P2. repeat split; reflexivity.
Qed.

End WithEnv.
End Registry.

(** ** The self-evolving agent *)

Module Feedback.
Section WithEnv.

Variable env : Env.

Import PyM.

Lemma last_n_snoc {A} n (l : list A) x :
  last_n (S n) (l ++ [x]) = last_n n l ++ [x].
Proof.
  unfold last_n. rewrite length_app. simpl.
  replace (length l + 1 - S n) with (length l - n) by lia.
  rewrite skipn_app.
  replace (length l - n - length l) with 0 by lia.
  reflexivity.
Qed.

Lemma relevant_history_snoc_match t history l :
  Agents.task_type_matches t l = true ->
  Agents.relevant_history t (history ++ [l])
  = last_n 4 (filter (Agents.task_type_matches t) history) ++ [l].
Proof.
  intro Hm. unfold Agents.relevant_history.
  rewrite filter_app. simpl. rewrite Hm. apply last_n_snoc.
Qed.

Lemma relevant_history_snoc_other t history l :
  Agents.task_type_matches t l = false ->
  Agents.relevant_history t (history ++ [l])
  = Agents.relevant_history t history.
Proof.
  intro Hm. unfold Agents.relevant_history.
  rewrite filter_app. simpl. rewrite Hm, app_nil_r. reflexivity.
Qed.

(** X15. The selection of [adapt_strategy] slides over the history.  When
    the history is [history] followed by one more record [l] (what an append
    leaves) and [l] is about the task type, the system prompt sent to the
    client is built from the last four matching records of [history] followed
    by [l], so with five earlier matches the oldest of them is dropped; when
    [l] is about another task type, or names none, the prompt is built from
    the last five matching records of [history], as it was before [l]. *)
Theorem adapt_strategy_sliding_window
    task_type context temperature w history l llm :
  self_evolving_llm w = Some llm ->
  interaction_history w = history ++ [l] ->
  let matching h :=
    match Dict.get (previous_interaction h) "task_type" with
    | Some (PStr s) => String.eqb s task_type
    | _ => false
    end in
  let earlier := filter matching history in
  let selected :=
    if matching l then last_n 4 earlier ++ [l] else last_n 5 earlier in
  Agents.relevant_history task_type (interaction_history w) = selected /\
  llm_calls (snd (Agents.adapt_strategy env task_type context temperature w))
    = llm_calls w ++
      [(Generate, llm,
        mkGenArgs (Agents.adapt_system_prompt env task_type selected)
          (Agents.adapt_user_prompt task_type context)
          temperature (PInt 2048))].
Proof.
  intros Hllm Hhistory matching earlier selected.
  assert (Hselected :
            Agents.relevant_history task_type (interaction_history w)
            = selected).
  { rewrite Hhistory. unfold selected, earlier.
    change matching with (Agents.task_type_matches task_type).
    destruct (Agents.task_type_matches task_type l) eqn:Hm.
    - apply relevant_history_snoc_match. exact Hm.
    - apply relevant_history_snoc_other. exact Hm. }
  split; [exact Hselected|].
  rewrite <- Hselected.
  unfold Agents.adapt_strategy, try_except, bind, Agents.llm_generate.
  simpl. rewrite Hllm.
  destruct (client_generate env llm _ (Agents.tick w)); reflexivity.
Qed.

(** X14. [adapt_strategy] only reads: it leaves the history and every binding
    as they were, and the [based_on_interactions] it reports is the number of
    records it selected, [min 5 n] for [n] matching records. *)
Theorem adapt_strategy_reads_only task_type context temperature w :
  let run := Agents.adapt_strategy env task_type context temperature w in
  interaction_history (snd run) = interaction_history w /\
  (forall a, agent_llm a (snd run) = agent_llm a w) /\
  match fst run with
  | inr result =>
      Dict.get result "based_on_interactions"
      = Some (PInt (Z.of_nat
                      (Nat.min 5
                         (length (filter (Agents.task_type_matches task_type)
                                    (interaction_history w))))))
  | inl _ => True
  end.
Proof.
  simpl. split; [|split].
  - destruct (Dispatch.adapt_strategy_effect env task_type context
                temperature w) as [[-> _] | (llm & args & _ & ->)];
      reflexivity.
  - intro a.
    destruct (Dispatch.adapt_strategy_effect env task_type context
                temperature w) as [[-> _] | (llm & args & _ & ->)];
      [reflexivity | apply Effects.agent_llm_with_call].
  - unfold Agents.adapt_strategy, bind, try_except, Agents.llm_generate,
      raise, ret.
    simpl agent_llm.
    destruct (self_evolving_llm w) as [llm|]; [|exact I].
    destruct (client_generate env llm _ _) as [e | response]; [exact I|].
    simpl. unfold Agents.relevant_history.
    rewrite History.last_n_length. reflexivity.
Qed.

(** X16. After [clear_history] nothing of the old history reaches an
    adaptation: for every task type the system prompt sent to the client
    ends in ["Recent History: No history yet"]; everything but the history
    is left as it was. *)
Theorem clear_history_forgets task_type context temperature w llm :
  self_evolving_llm w = Some llm ->
  let cleared := snd (Agents.clear_history w) in
  Agents.get_interaction_history cleared = [] /\
  (forall a, agent_llm a cleared = agent_llm a w) /\
  llms cleared = llms w /\ llm_calls cleared = llm_calls w /\
  llm_calls
    (snd (Agents.adapt_strategy env task_type context temperature cleared))
  = llm_calls w ++
    [(Generate, llm,
      mkGenArgs
        (unlines
           ["You are a self-improving AI agent.";
            "Analyze past performance and adapt strategy for better outcomes.";
            "";
            ("Task Type: " ++ task_type)%string;
            "Recent History: No history yet"])
        (Agents.adapt_user_prompt task_type context)
        temperature (PInt 2048))].
Proof.
  intros Hllm cleared. unfold cleared, Agents.clear_history. simpl.
  split; [reflexivity|]. split; [intros []; reflexivity|].
  split; [reflexivity|]. split; [reflexivity|].
  unfold Agents.adapt_strategy, bind, try_except, Agents.llm_generate.
  simpl agent_llm. simpl self_evolving_llm. rewrite Hllm.
  destruct (client_generate env llm _ _); reflexivity.
Qed.

End WithEnv.
End Feedback.

(** ** The templates as shipped *)

Module Shipped.
Section WithEnv.

Variable env : Env.

Import PyM.

Hypothesis shipped : forall t, template_fields env t = shipped_fields t.

Lemma design_architecture_raises kw w :
  exists e, Agents.design_architecture env kw w = (inl e, w).
Proof.
  unfold Agents.design_architecture, Agents.agent_method, bind, try_except,
    raise.
  destruct (Dispatch.bind_kwargs_cases (signature design_architecture_op)
              kw w) as [-> | [e ->]]; [|eauto].
  destruct (Dispatch.fetch_cases env design_architecture_op kw w)
    as [-> | [e ->]]; [|eauto].
  unfold Agents.format_for, Agents.format_template, format_call.
  cbv beta iota. rewrite shipped. simpl. unfold raise. eauto.
Qed.

Lemma analyze_repository_raises kw w :
  exists e, Agents.analyze_repository env kw w = (inl e, w).
Proof.
  unfold Agents.analyze_repository, Agents.agent_method, bind, try_except,
    raise.
  destruct (Dispatch.bind_kwargs_cases (signature analyze_repository_op)
              kw w) as [-> | [e ->]]; [|eauto].
  destruct (Dispatch.fetch_cases env analyze_repository_op kw w)
    as [-> | [e ->]]; [|eauto].
  unfold Agents.format_for, Agents.format_template, format_call.
  cbv beta iota. rewrite shipped. simpl. unfold raise. eauto.
Qed.

Lemma learn_from_feedback_kw_raises kw w :
  exists e, Agents.learn_from_feedback_kw env kw w = (inl e, w).
Proof.
  unfold Agents.learn_from_feedback_kw, bind.
  destruct (Dispatch.bind_kwargs_cases learn_from_feedback_signature
              kw w) as [-> | [e ->]]; [|eauto].
  repeat match goal with
         | |- context [match ?x with _ => _ end] =>
             match type of x with
             | option PyVal => destruct x
             | PyVal => destruct x
             end
         end;
    try (unfold raise; eauto; fail).
  rewrite History.learn_from_feedback_shipped_template by apply shipped.
  eauto.
Qed.

(** One attempt at one of the three task types raises without calling a
    client or touching the history. *)
Lemma blocked_dispatch t m kw w :
  In t ["architecture"; "analyze-repo"; "learn"] ->
  exists e w1,
    Orchestrator.route_dispatch env t m kw w = (inl e, w1) /\
    called w1 = called w /\
    interaction_history w1 = interaction_history w.
Proof.
  intros [<- | [<- | [<- | []]]]; unfold Orchestrator.route_dispatch;
    cbv [String.eqb Ascii.eqb Bool.eqb].
  - unfold Orchestrator.swap_llm, bind, read_llm, write_llm, ret.
    destruct (truthy m).
    + destruct (design_architecture_raises kw
                  (with_agent_llm system_architect
                     (Some (Orchestrator.get_llm m w)) w)) as [e ->].
      do 2 eexists. repeat split.
    + destruct (design_architecture_raises kw w) as [e ->].
      do 2 eexists. repeat split.
  - destruct (analyze_repository_raises kw w) as [e ->].
    do 2 eexists. repeat split.
  - destruct (learn_from_feedback_kw_raises kw w) as [e ->].
    do 2 eexists. repeat split.
Qed.

Lemma blocked_request t m kw w :
  In t ["architecture"; "analyze-repo"; "learn"] ->
  let run := Orchestrator.route_request env t m kw w in
  (exists e, fst run = inl e) /\
  called (snd run) = called w /\
  interaction_history (snd run) = interaction_history w.
Proof.
  intros Ht run. unfold run.
  destruct (blocked_dispatch m kw w Ht) as (e1 & w1 & H1 & C1 & I1).
  destruct (Guarantees.route_request_cases env t m kw w)
    as [-> | (e1' & w1' & H1' & _ & ->)].
  - rewrite H1. simpl. eauto.
  - rewrite H1 in H1'. inversion H1'. subst e1' w1'.
    destruct (blocked_dispatch (Some "openai") kw w1 Ht)
      as (e2 & w2 & -> & C2 & I2).
    simpl. split; [eauto|]. split; congruence.
Qed.

(** X17. With the templates as shipped, ["architecture"], ["analyze-repo"] and
    ["learn"] can only fail: the [format] call of each raises [KeyError] (when
    nothing raised earlier), so [route_request] raises, with or without the
    fallback retry, and no client is ever called for them. *)
Theorem shipped_templates_block_tasks t m kw w :
  In t ["architecture"; "analyze-repo"; "learn"] ->
  let run := Orchestrator.route_request env t m kw w in
  (exists e, fst run = inl e) /\
  called (snd run) = called w /\
  interaction_history (snd run) = interaction_history w.
Proof. exact (@blocked_request t m kw w). Qed.

(** X18. With the templates as shipped, no [route_request] ever changes the
    feedback history: the only writer is a ["learn"] that returns, and none
    does. *)
Theorem shipped_history_never_grows t m kw w :
  interaction_history (snd (Orchestrator.route_request env t m kw w))
  = interaction_history w.
Proof.
  destruct (Guarantees.route_request_history_cases env t m kw w)
    as [H | (-> & r & l & Hr & _)]; [exact H|].
  destruct (@blocked_request "learn" m kw w) as [[e He] _];
    [simpl; tauto|].
  simpl in Hr. rewrite Hr in He. discriminate.
Qed.

(** X19. With the templates as shipped, [POST /learn/feedback] answers 500 with
    detail ['context'] to every request and records nothing, and
    [POST /github/analyze] answers 400 or 500 to every request; neither
    changes the orchestrator's state. *)
Theorem shipped_endpoints_fail feedback_request analysis_request w :
  Routes.process_feedback env feedback_request w
    = (inl (Routes.mkHTTPException 500 "'context'"), w) /\
  exists status detail,
    Routes.analyze_repository env analysis_request w
      = (inl (Routes.mkHTTPException status detail), w) /\
    (status = 400 \/ status = 500).
Proof.
  split.
  - unfold Routes.process_feedback.
    assert (Hd : forall m w0,
               Orchestrator.route_dispatch env "learn" m
                 [("previous_interaction",
                   PDict (Routes.fb_previous_interaction feedback_request));
                  ("feedback", PStr (Routes.fb_feedback feedback_request));
                  ("outcome", PStr (Routes.fb_outcome feedback_request));
                  ("temperature",
                   PFloat (Routes.fb_temperature feedback_request))] w0
               = (inl (KeyError "context"), w0)).
    { intros m w0. unfold Orchestrator.route_dispatch.
      cbv [String.eqb Ascii.eqb Bool.eqb].
      unfold Agents.learn_from_feedback_kw, bind, Agents.bind_kwargs.
      simpl.
      rewrite History.learn_from_feedback_shipped_template by apply shipped.
      reflexivity. }
    rewrite Routing.route_request_unfold, Hd.
    destruct (Orchestrator.fallback_eligible env None w); [|reflexivity].
    rewrite Routing.route_request_openai, Hd. reflexivity.
  - unfold Routes.analyze_repository.
    destruct (String.eqb _ "" || negb _); [eauto|].
    match goal with
    | |- context [Orchestrator.route_request env ?t ?m ?kw w] =>
        assert (Hd : forall m0 w0, exists e,
                   Orchestrator.route_dispatch env t m0 kw w0 = (inl e, w0))
    end.
    { intros m0 w0. unfold Orchestrator.route_dispatch.
      cbv [String.eqb Ascii.eqb Bool.eqb].
      apply analyze_repository_raises. }
    rewrite Routing.route_request_unfold.
    destruct (Hd None w) as [e ->].
    destruct (Orchestrator.fallback_eligible env None w);
      [|simpl; eauto].
    rewrite Routing.route_request_openai.
    destruct (Hd (Some "openai") w) as [e2 ->]. simpl. eauto.
Qed.

End WithEnv.
End Shipped.

(** ** Endpoints whose call cannot bind *)

Module Endpoints.
Section WithEnv.

Variable env : Env.

Import PyM.

(** A request whose first attempt raises and leaves the state alone at every
    attempt ends with an exception and the state it started in. *)
Lemma route_request_raises_twice t m kw w :
  (forall m0 w0, exists e,
      Orchestrator.route_dispatch env t m0 kw w0 = (inl e, w0)) ->
  exists e, Orchestrator.route_request env t m kw w = (inl e, w).
Proof.
  intro Hd. rewrite Routing.route_request_unfold.
  destruct (Hd m w) as [e ->].
  destruct (Orchestrator.fallback_eligible env m w); [|eauto].
  rewrite Routing.route_request_openai. apply Hd.
Qed.

(** X20. [POST /learn/adapt] and [POST /github/code-search] answer 500 to every
    request, in every state and whatever the providers do: the first never
    passes the [task_type] that [adapt_strategy] requires, the second passes
    a [repo_context] that [code_search_assistant] does not take, so the call
    raises [TypeError] before anything runs; the state is left as it was. *)
Theorem adapt_and_code_search_endpoints_fail adapt_request search_request w :
  (exists detail,
     Routes.adapt_strategy env adapt_request w
     = (inl (Routes.mkHTTPException 500 detail), w)) /\
  (exists detail,
     Routes.assist_code_search env search_request w
     = (inl (Routes.mkHTTPException 500 detail), w)).
Proof.
  split.
  - unfold Routes.adapt_strategy.
    match goal with
    | |- context [Orchestrator.route_request env ?t ?m ?kw w] =>
        destruct (@route_request_raises_twice t m kw w) as [e ->]
    end; [|simpl; eauto].
    intros m0 w0. unfold Orchestrator.route_dispatch.
    cbv [String.eqb Ascii.eqb Bool.eqb].
    unfold Agents.adapt_strategy_kw, bind, Agents.bind_kwargs. simpl.
    unfold raise. eauto.
  - unfold Routes.assist_code_search.
    match goal with
    | |- context [Orchestrator.route_request env ?t ?m ?kw w] =>
        destruct (@route_request_raises_twice t m kw w) as [e ->]
    end; [|simpl; eauto].
    intros m0 w0. unfold Orchestrator.route_dispatch.
    cbv [String.eqb Ascii.eqb Bool.eqb].
    unfold Agents.code_search_assistant, Agents.agent_method, bind,
      Agents.bind_kwargs.
    simpl. unfold raise. eauto.
Qed.

End WithEnv.
End Endpoints.

(** ** One call per method *)

Module Methods.
Section WithEnv.

Variable env : Env.

Import PyM.

Lemma fetch_code_search kw w :
  Agents.fetch env code_search_assistant_op kw w = (inr tt, w).
Proof.
  unfold Agents.fetch, Agents.github_call, try_except, ret.
  destruct (Agents.authenticated env); [|reflexivity].
  destruct (github_fetch env kw (Agents.tick w)); reflexivity.
Qed.

(** X13. An agent method never retries, and an exception of the client is
    never swallowed: either the method raises before reaching the client and
    changes nothing, or it calls the client its agent is bound to exactly
    once, and then its outcome is the client's: the client's exception as it
    is, or the client's response wrapped in the method's result.  GitHub is
    treated in two ways.  A failure of the search that
    [code_search_assistant] makes when authenticated is caught inside the
    method: with the keywords accepted and the agent bound, the client is
    called once whatever the search did.  A failure of the repository reads
    of [analyze_repository] is the method's failure: it raises that
    exception, and no client is called. *)
Theorem agent_method_single_call op kw w :
  let run := Agents.agent_method env op kw w in
  ((snd run = w /\ exists e, fst run = inl e) \/
   exists llm,
     agent_llm (owner op) w = Some llm /\
     called (snd run) = called w ++ [llm] /\
     fst run =
       match
         client_generate env llm (prompt_of env op kw (Agents.tick w))
           (Agents.tick w)
       with
       | inl e => inl e
       | inr response => inr (result_of env op kw response)
       end) /\
  match bind_error (signature code_search_assistant_op) kw,
        agent_llm github_mcp w with
  | None, Some llm =>
      called (snd (Agents.code_search_assistant env kw w)) = called w ++ [llm]
  | _, _ => True
  end /\
  match bind_error (signature analyze_repository_op) kw,
        github_fetch env kw (Agents.tick w) with
  | None, Some e => Agents.analyze_repository env kw w = (inl e, w)
  | _, _ => True
  end.
Proof.
  split; [|split].
  - unfold Agents.agent_method, bind, try_except.
    destruct (Dispatch.bind_kwargs_cases (signature op) kw w)
      as [-> | [e ->]]; [|left; simpl; eauto].
    destruct (Dispatch.fetch_cases env op kw w) as [-> | [e ->]];
      [|left; simpl; eauto].
    destruct (Dispatch.format_for_cases env op w) as [-> | [e ->]];
      [|left; simpl; eauto].
    unfold Agents.build_prompt, Agents.llm_generate, raise, ret.
    destruct (agent_llm (owner op) w) as [llm|]; [|left; simpl; eauto].
    right. exists llm. split; [reflexivity|].
    destruct (client_generate env llm _ _); simpl;
      rewrite Effects.called_with_call; split; reflexivity.
  - unfold Agents.code_search_assistant, Agents.agent_method,
      Agents.bind_kwargs.
    destruct (bind_error (signature code_search_assistant_op) kw) eqn:Hbind;
      [exact I|].
    destruct (agent_llm github_mcp w) as [llm|] eqn:Hllm; [|exact I].
    unfold bind, try_except. unfold ret at 1. cbv beta iota.
    rewrite fetch_code_search.
    unfold Agents.format_for, Agents.build_prompt, Agents.llm_generate,
      format_call, ret.
    cbv beta iota.
    simpl owner. rewrite Hllm.
    destruct (client_generate env llm _ _); simpl;
      apply Effects.called_with_call.
  - unfold Agents.analyze_repository, Agents.agent_method,
      Agents.bind_kwargs.
    destruct (bind_error (signature analyze_repository_op) kw) eqn:Hbind;
      [exact I|].
    destruct (github_fetch env kw (Agents.tick w)) as [e|] eqn:Hfetch;
      [|exact I].
    unfold bind, try_except, ret, raise, Agents.fetch, Agents.github_call.
    rewrite Hfetch. reflexivity.
Qed.

End WithEnv.
End Methods.

(** ** Truncation *)

Module HelpersFacts.

Import Helpers.

Lemma length_prefix n s :
  String.length (substring 0 n s) = Nat.min n (String.length s).
Proof.
  revert s. induction n as [|n IH]; intros [|c s]; simpl; auto.
Qed.

Lemma length_append s1 s2 :
  String.length (s1 ++ s2)%string = String.length s1 + String.length s2.
Proof. induction s1 as [|c s1 IH]; simpl; auto. Qed.

Lemma prefix_split n s :
  n <= String.length s ->
  exists rest, s = (substring 0 n s ++ rest)%string.
Proof.
  revert s. induction n as [|n IH]; intros s Hle.
  - exists s. destruct s; reflexivity.
  - destruct s as [|c s]; simpl in Hle; [lia|].
    destruct (IH s) as [rest Hrest]; [lia|].
    exists rest. simpl. rewrite <- Hrest. reflexivity.
Qed.

Lemma prefix_of_append n s1 s2 :
  String.length s1 = n -> substring 0 n (s1 ++ s2)%string = s1.
Proof.
  revert s1. induction n as [|n IH]; intros [|c s1]; simpl; try discriminate.
  - intros _. destruct s2; reflexivity.
  - intro H. rewrite IH by lia. reflexivity.
Qed.

(** X21. For a non-negative [max_length], [truncate_text] returns a text of
    at most [max_length] characters as it is, and a longer one as its first
    [max_length] characters followed by three dots, so the result can be up to
    [max_length + 3] long; truncating twice is truncating once. *)
Theorem truncate_text_bounded_idempotent text max_length :
  (0 <= max_length)%Z ->
  let result := truncate_text text max_length in
  (Z.of_nat (String.length result) <= max_length + 3)%Z /\
  ((Z.of_nat (String.length text) <= max_length)%Z -> result = text) /\
  ((max_length < Z.of_nat (String.length text))%Z ->
   Z.of_nat (String.length result) = (max_length + 3)%Z) /\
  truncate_text result max_length = result /\
  ((max_length < Z.of_nat (String.length text))%Z ->
   exists head rest,
     text = (head ++ rest)%string /\
     Z.of_nat (String.length head) = max_length /\
     result = (head ++ "...")%string).
Proof.
  intros Hnn result. unfold result, truncate_text, slice_to.
  destruct (Z.leb_spec (Z.of_nat (String.length text)) max_length)
    as [Hshort | Hlong].
  - split; [lia|]. split; [reflexivity|]. split; [lia|].
    split; [|lia].
    destruct (Z.leb_spec (Z.of_nat (String.length text)) max_length);
      [reflexivity | lia].
  - destruct (Z.leb_spec 0 max_length) as [_ | Hneg]; [|lia].
    assert (Hlen : String.length (substring 0 (Z.to_nat max_length) text)
                   = Z.to_nat max_length)
      by (rewrite length_prefix; lia).
    assert (Hres : String.length
                     (substring 0 (Z.to_nat max_length) text ++ "...")%string
                   = Z.to_nat max_length + 3)
      by (rewrite length_append, Hlen; reflexivity).
    split; [lia|]. split; [lia|]. split; [lia|]. split.
    + destruct (Z.leb_spec
                  (Z.of_nat
                     (String.length
                        (substring 0 (Z.to_nat max_length) text
                         ++ "...")%string))
                  max_length) as [Hle | _]; [lia|].
      rewrite prefix_of_append by exact Hlen. reflexivity.
    + intros _.
      destruct (@prefix_split (Z.to_nat max_length) text) as [rest Hrest];
        [lia|].
      exists (substring 0 (Z.to_nat max_length) text), rest.
      split; [exact Hrest|]. split; [lia | reflexivity].
Qed.

End HelpersFacts.

(** ** The statements above on concrete deployments *)

Module Instances.

Import Scenario.

Lemma consistent_world_all : consistent world_all.
Proof.
  split; [left; reflexivity|].
  intros []; (exists claude; split; [reflexivity | left; reflexivity]).
Defined.

Lemma bound_world_all : forall a, agent_llm a world_all <> None.
Proof. intros []; discriminate. Defined.

Lemma shipped_env_all : forall t, template_fields env_all t = shipped_fields t.
Proof. intro t. reflexivity. Defined.

Lemma init_binds_agents_to_primary_witness :
  Orchestrator.init env_all = inr world_all /\
  consistent world_all /\
  (forall a, agent_llm a world_all = Some (primary_llm world_all)) /\
  interaction_history world_all = [] /\ llm_calls world_all = [].
Proof.
  assert (Hinit : Orchestrator.init env_all = inr world_all)
    by (vm_compute; reflexivity).
  split; [exact Hinit|].
  exact (@Guarantees.init_binds_agents_to_primary env_all world_all Hinit).
Defined.

Lemma init_available_models_witness :
  Orchestrator.init env_all = inr world_all /\
  Orchestrator.get_available_models world_all = ["claude"; "openai"; "gemini"].
Proof.
  assert (Hinit : Orchestrator.init env_all = inr world_all)
    by (vm_compute; reflexivity).
  split; [exact Hinit|].
  exact (proj1 (@Registry.init_available_models env_all world_all Hinit)).
Defined.

Lemma agents_stay_on_registered_clients_witness :
  consistent world_all /\
  consistent
    (snd (Orchestrator.route_request env_gemini_down "generate"
            (Some "gemini") generate_kwargs world_all)) /\
  consistent
    (snd (Orchestrator.stream_generate env_gemini_down (Some "gemini")
            generate_kwargs world_all)).
Proof.
  split; [exact consistent_world_all|].
  exact (@Guarantees.agents_stay_on_registered_clients env_gemini_down
           "generate" (Some "gemini") generate_kwargs world_all
           consistent_world_all).
Defined.

Lemma route_request_success_restores_witness :
  (forall a, agent_llm a world_all <> None) /\
  exists result w',
    Orchestrator.route_dispatch env_all "generate" (Some "gemini")
      generate_kwargs world_all = (inr result, w') /\
    Orchestrator.route_request env_all "generate" (Some "gemini")
      generate_kwargs world_all = (inr result, w') /\
    forall a, agent_llm a w' = agent_llm a world_all.
Proof.
  split; [exact bound_world_all|].
  match eval vm_compute in
        (Orchestrator.route_dispatch env_all "generate" (Some "gemini")
           generate_kwargs world_all)
  with
  | (inr ?r, ?w1) =>
      exists r, w1;
      assert (Hfirst :
                Orchestrator.route_dispatch env_all "generate" (Some "gemini")
                  generate_kwargs world_all = (inr r, w1))
        by (vm_compute; reflexivity);
      split; [exact Hfirst|];
      exact (@Guarantees.route_request_success_restores env_all "generate"
               (Some "gemini") generate_kwargs world_all r w1
               bound_world_all Hfirst)
  end.
Defined.

Lemma route_request_rebinds_only_task_agent_witness :
  rebound_agent "generate" <> Some github_mcp /\
  agent_llm github_mcp
    (snd (Orchestrator.route_request env_gemini_down "generate"
            (Some "gemini") generate_kwargs world_all))
  = agent_llm github_mcp world_all.
Proof.
  assert (Hother : rebound_agent "generate" <> Some github_mcp)
    by (vm_compute; discriminate).
  split; [exact Hother|].
  exact (@Guarantees.route_request_rebinds_only_task_agent env_gemini_down
           "generate" (Some "gemini") generate_kwargs world_all github_mcp
           Hother).
Defined.

Lemma route_request_calls_named_client_witness :
  In "generate" swapping_task_types /\
  Dict.get (llms world_all) "gemini" = Some gemini /\
  exists calls,
    called
      (snd (Orchestrator.route_request env_gemini_down "generate"
              (Some "gemini") generate_kwargs world_all))
    = called world_all ++ calls /\
    (calls = [] \/ calls = [gemini] \/
     exists openai0,
       Dict.get (llms world_all) "openai" = Some openai0 /\
       (calls = [openai0] \/ calls = [gemini; openai0])).
Proof.
  assert (Ht : In "generate" swapping_task_types) by (left; reflexivity).
  split; [exact Ht|]. split; [reflexivity|].
  exact (@Guarantees.route_request_calls_named_client env_gemini_down
           "generate" "gemini" generate_kwargs world_all gemini Ht
           eq_refl eq_refl).
Defined.

Lemma route_request_ignores_model_witness :
  ~ In "quick-check" swapping_task_types /\
  Orchestrator.route_request env_all "quick-check" None quick_check_kwargs
    world_all
  = Orchestrator.route_request env_all "quick-check" (Some "gemini")
      quick_check_kwargs world_all.
Proof.
  assert (Hnot : ~ In "quick-check" swapping_task_types)
    by (unfold swapping_task_types; simpl; intuition discriminate).
  split; [exact Hnot|].
  exact (@Guarantees.route_request_ignores_model env_all "quick-check" None
           (Some "gemini") quick_check_kwargs world_all Hnot eq_refl).
Defined.

Lemma route_request_retry_same_client_witness :
  ~ In "quick-check" swapping_task_types /\
  agent_llm code_reviewer world_all = Some claude /\
  exists calls,
    called
      (snd (Orchestrator.route_request env_all "quick-check" None
              quick_check_kwargs world_all))
    = called world_all ++ calls /\
    (calls = [] \/ calls = [claude] \/ calls = [claude; claude]).
Proof.
  assert (Hnot : ~ In "quick-check" swapping_task_types)
    by (unfold swapping_task_types; simpl; intuition discriminate).
  split; [exact Hnot|]. split; [reflexivity|].
  exact (@Guarantees.route_request_retry_same_client env_all "quick-check"
           None quick_check_kwargs world_all code_reviewer claude Hnot
           eq_refl eq_refl).
Defined.

Lemma stream_generate_fallback_appends_witness :
  Orchestrator.fallback_eligible env_gemini_down (Some "gemini") world_all
    = true /\
  fst (fst (Orchestrator.stream_generate env_gemini_down (Some "gemini")
              generate_kwargs world_all))
  = ["def add("; "a, b"; "def add("; "a, b"; "): return a + b"].
Proof.
  split; [reflexivity|].
  match eval vm_compute in
        (Agents.stream_generate_code env_gemini_down generate_kwargs
           (with_agent_llm code_generator
              (stream_target (Some "gemini") world_all) world_all))
  with
  | (?out1, Some ?e1, ?w1) =>
      assert (Hfirst :
                Agents.stream_generate_code env_gemini_down generate_kwargs
                  (with_agent_llm code_generator
                     (stream_target (Some "gemini") world_all) world_all)
                = (out1, Some e1, w1)) by (vm_compute; reflexivity);
      rewrite (@StreamFrame.stream_generate_fallback_appends env_gemini_down
                 (Some "gemini") generate_kwargs world_all out1 e1 w1 openai
                 Hfirst eq_refl eq_refl)
  end.
  vm_compute. reflexivity.
Defined.

Lemma adapt_strategy_sliding_window_witness :
  self_evolving_llm world_history7 = Some claude /\
  interaction_history world_history7
  = [record "review" "t1"; record "generate" "t2"; record "review" "t3";
     record "review" "t4"; record "review" "t5"; record "review" "t6"]
    ++ [record "review" "t7"] /\
  llm_calls
    (snd (Agents.adapt_strategy env_all "review" None (PFloat "0.3")
            world_history7))
  = llm_calls world_history7 ++
    [(Generate, claude,
      mkGenArgs
        (Agents.adapt_system_prompt env_all "review"
           [record "review" "t3"; record "review" "t4"; record "review" "t5";
            record "review" "t6"; record "review" "t7"])
        (Agents.adapt_user_prompt "review" None)
        (PFloat "0.3") (PInt 2048))].
Proof.
  split; [reflexivity|]. split; [reflexivity|].
  exact (proj2 (@Feedback.adapt_strategy_sliding_window env_all "review" None
                  (PFloat "0.3") world_history7
                  [record "review" "t1"; record "generate" "t2";
                   record "review" "t3"; record "review" "t4";
                   record "review" "t5"; record "review" "t6"]
                  (record "review" "t7") claude eq_refl eq_refl)).
Defined.

Lemma agent_method_single_call_witness :
  Agents.authenticated env_github_down = true /\
  github_fetch env_github_down search_kwargs (Agents.tick world_all)
  = Some rate_limited /\
  called (snd (Agents.code_search_assistant env_github_down search_kwargs
                 world_all))
  = called world_all ++ [claude] /\
  Agents.analyze_repository env_github_down repo_kwargs world_all
  = (inl rate_limited, world_all).
Proof.
  split; [reflexivity|]. split; [reflexivity|]. split.
  - exact (proj1 (proj2 (@Methods.agent_method_single_call env_github_down
                           code_search_assistant_op search_kwargs
                           world_all))).
  - exact (proj2 (proj2 (@Methods.agent_method_single_call env_github_down
                           analyze_repository_op repo_kwargs world_all))).
Defined.

Lemma clear_history_forgets_witness :
  self_evolving_llm world_history7 = Some claude /\
  interaction_history world_history7 = history7 /\
  Agents.get_interaction_history (snd (Agents.clear_history world_history7))
  = [].
Proof.
  split; [reflexivity|]. split; [reflexivity|].
  exact (proj1 (@Feedback.clear_history_forgets env_all "review" None
                  (PFloat "0.3") world_history7 claude eq_refl)).
Defined.

Lemma shipped_templates_block_tasks_witness :
  (forall t, template_fields env_all t = shipped_fields t) /\
  exists e,
    fst (Orchestrator.route_request env_all "architecture" (Some "gemini")
           [("requirements", PStr "a service that stores user notes")]
           world_all) = inl e.
Proof.
  split; [exact shipped_env_all|].
  exact (proj1 (@Shipped.shipped_templates_block_tasks env_all shipped_env_all
                  "architecture" (Some "gemini")
                  [("requirements", PStr "a service that stores user notes")]
                  world_all (or_introl eq_refl))).
Defined.

Lemma shipped_history_never_grows_witness :
  (forall t, template_fields env_all t = shipped_fields t) /\
  interaction_history
    (snd (Orchestrator.route_request env_all "learn" None
            [("previous_interaction", PDict [("task_type", PStr "review")]);
             ("feedback", PStr "too verbose"); ("outcome", PStr "partial")]
            world_history7))
  = history7.
Proof.
  split; [exact shipped_env_all|].
  exact (@Shipped.shipped_history_never_grows env_all shipped_env_all "learn"
           None
           [("previous_interaction", PDict [("task_type", PStr "review")]);
            ("feedback", PStr "too verbose"); ("outcome", PStr "partial")]
           world_history7).
Defined.

Lemma shipped_endpoints_fail_witness :
  (forall t, template_fields env_all t = shipped_fields t) /\
  Routes.process_feedback env_all
    (Routes.mkFeedbackRequest [("task_type", PStr "review")] "too verbose"
       "partial" "0.4") world_all
  = (inl (Routes.mkHTTPException 500 "'context'"), world_all).
Proof.
  split; [exact shipped_env_all|].
  exact (proj1 (@Shipped.shipped_endpoints_fail env_all shipped_env_all
                  (Routes.mkFeedbackRequest [("task_type", PStr "review")]
                     "too verbose" "partial" "0.4")
                  (Routes.mkRepoAnalysisRequest
                     "https://github.com/python/cpython" "structure" "0.3")
                  world_all)).
Defined.

Lemma truncate_text_bounded_idempotent_witness :
  (0 <= 5)%Z /\
  Helpers.truncate_text "hello world" 5 = "hello..." /\
  Helpers.truncate_text (Helpers.truncate_text "hello world" 5) 5
  = Helpers.truncate_text "hello world" 5.
Proof.
  assert (Hnn : (0 <= 5)%Z) by lia.
  split; [exact Hnn|]. split; [reflexivity|].
  exact (proj1 (proj2 (proj2 (proj2
    (@HelpersFacts.truncate_text_bounded_idempotent "hello world" 5 Hnn))))).
Defined.

End Instances.
